(** * The photovoltaic yield simulation core, embedded in Rocq

    A shallow embedding of the simulation pipeline of the power-forecast
    repository (solar geometry, plane-of-array irradiance, cell temperature,
    DC power, loss cascade, AC power, result formatting) together with the
    properties its specification states about it.

    Conventions of the embedding.
    - A Python / numpy float is a [pyfloat]: an exact rational or [NaN].
      Arithmetic is exact (no rounding, no overflow); [NaN] propagates through
      arithmetic and makes every comparison false, as in IEEE 754. Where a
      property depends on rounding, the loss cascade is also given on IEEE
      binary64 numbers ([Float64]).
    - A pandas [Series] is the list of its values in index order; the columns
      of one DataFrame share their index, so element-wise operations are
      positional.
    - The configuration dictionaries are used by the code as structs (fixed
      literal keys), so they are records; the loss dictionary is iterated and
      looked up by name, so it is an association list in insertion order.
    - A raised exception is a [Raise] result.
    - The numerical models of the third-party library pvlib that the
      specification does not pin down by a formula are an interface
      ([Pvlib]); every theorem holds for all of its implementations. *)

From Stdlib Require Import QArith Qminmax Lqa.
From Stdlib Require PrimFloat.
Import (notations) PrimFloat.
#[local] Set Warnings "-inexact-float".
From stdpp Require Import base list strings.

Local Open Scope Q_scope.

(** ** Floats *)

Inductive pyfloat : Type :=
  | NaN
  | Num (q : Q).

Definition is_nan (v : pyfloat) : bool :=
  match v with NaN => true | Num _ => false end.

(** Arithmetic: [NaN] is absorbing. *)
Definition lift2 (f : Q -> Q -> Q) (a b : pyfloat) : pyfloat :=
  match a, b with
  | Num x, Num y => Num (f x y)
  | _, _ => NaN
  end.

Definition fadd : pyfloat -> pyfloat -> pyfloat := lift2 Qplus.
Definition fsub : pyfloat -> pyfloat -> pyfloat := lift2 Qminus.
Definition fmul : pyfloat -> pyfloat -> pyfloat := lift2 Qmult.

(** Division. numpy yields an infinity or NaN for a zero divisor; the model
    has no infinities, so every division by zero is [NaN]. *)
Definition fdiv (a b : pyfloat) : pyfloat :=
  match a, b with
  | Num x, Num y => if Qeq_bool y 0 then NaN else Num (x / y)
  | _, _ => NaN
  end.

Definition Qlt_bool (x y : Q) : bool := negb (Qle_bool y x).

(** Comparisons: false as soon as one side is [NaN]. *)
Definition fle (a b : pyfloat) : bool :=
  match a, b with
  | Num x, Num y => Qle_bool x y
  | _, _ => false
  end.

Definition fge (a b : pyfloat) : bool := fle b a.

(** Equality of floats up to the value of the rational ([1/2] and [2/4] are
    the same float). *)
Definition feq (a b : pyfloat) : Prop :=
  match a, b with
  | NaN, NaN => True
  | Num x, Num y => x == y
  | _, _ => False
  end.

(** ** pandas and numpy operations on series *)

Abbreviation Series := (list pyfloat).

(** [series * scalar] *)
Definition series_mul_scalar (s : Series) (c : Q) : Series :=
  (fun v => fmul v (Num c)) <$> s.

(** [a * b] on two series of one frame *)
Definition series_mul (a b : Series) : Series := zip_with fmul a b.

(** [series <= scalar] *)
Definition series_le_scalar (s : Series) (c : Q) : list bool :=
  (fun v => fle v (Num c)) <$> s.

(** [np.where(cond, x, y)] *)
Definition np_where (cond : list bool) (x y : Series) : Series :=
  zip_with (fun (c : bool) (xy : pyfloat * pyfloat) => if c then xy.1 else xy.2)
           cond (zip x y).

(** [np.maximum]: element-wise maximum, [NaN] if either side is. *)
Definition fmaximum (a b : pyfloat) : pyfloat :=
  match a, b with
  | Num x, Num y => if Qle_bool x y then Num y else Num x
  | _, _ => NaN
  end.

Definition np_maximum (a b : Series) : Series := zip_with fmaximum a b.

(** [Series.where(cond, other)] with a scalar [other]. *)
Definition where_scalar (keep : bool) (v : pyfloat) (other : Q) : pyfloat :=
  if keep then v else Num other.

(** [Series.clip(lower, upper)] with scalar thresholds. pandas orders the two
    thresholds when both are given, leaves missing values as they are, and
    replaces a value below [lower] by [lower], a value above [upper] by
    [upper]. *)
Definition clip_value (lower upper : option Q) (v : pyfloat) : pyfloat :=
  let '(lower, upper) :=
    match lower, upper with
    | Some lo, Some hi =>
        if Qle_bool lo hi then (Some lo, Some hi) else (Some hi, Some lo)
    | _, _ => (lower, upper)
    end in
  let mask := is_nan v in
  let result :=
    match lower with
    | Some lo => where_scalar (mask || fge v (Num lo)) v lo
    | None => v
    end in
  match upper with
  | Some hi => where_scalar (mask || fle v (Num hi)) result hi
  | None => result
  end.

Definition clip (lower upper : option Q) (s : Series) : Series :=
  clip_value lower upper <$> s.

(** [Series.fillna(value)] *)
Definition fillna_value (value : Q) (v : pyfloat) : pyfloat :=
  match v with NaN => Num value | Num _ => v end.

Definition fillna (value : Q) (s : Series) : Series :=
  fillna_value value <$> s.

(** [a - b] on two series of one frame *)
Definition series_sub (a b : Series) : Series := zip_with fsub a b.

(** [series > scalar] and [series < scalar] *)
Definition fgt (a b : pyfloat) : bool :=
  match a, b with
  | Num x, Num y => Qlt_bool y x
  | _, _ => false
  end.

Definition series_gt_scalar (s : Series) (c : Q) : list bool :=
  (fun v => fgt v (Num c)) <$> s.

Definition series_lt_scalar (s : Series) (c : Q) : list bool :=
  (fun v => fgt (Num c) v) <$> s.

(** [series[mask]] with a boolean mask on the same index *)
Fixpoint boolean_index (s : Series) (mask : list bool) : Series :=
  match s, mask with
  | v :: s', b :: mask' =>
      if b then v :: boolean_index s' mask' else boolean_index s' mask'
  | _, _ => []
  end.

(** [mask.sum()]: the number of true entries. *)
Definition bool_sum (mask : list bool) : nat :=
  length (filter (fun b => b = true) mask).

(** [Series.isnull().sum()] *)
Definition isnull_sum (s : Series) : nat := bool_sum (is_nan <$> s).

(** [Series.sum()]: missing values are skipped, the sum of nothing is 0. *)
Fixpoint series_sum (s : Series) : Q :=
  match s with
  | [] => 0
  | NaN :: s' => series_sum s'
  | Num x :: s' => x + series_sum s'
  end.

(** [Series.count()]: the number of values that are not missing. *)
Definition series_count (s : Series) : nat :=
  length (filter (fun v => is_nan v = false) s).

(** [Series.mean()]: the mean of the values that are not missing; [NaN] when
    there is none. *)
Definition series_mean (s : Series) : pyfloat :=
  match series_count s with
  | O => NaN
  | S _ as n => Num (series_sum s / inject_Z (Z.of_nat n))
  end.

(** [Series.max()] and [Series.min()]: missing values are skipped; [NaN]
    when there is no value. *)
Definition fmax_skipna (acc v : pyfloat) : pyfloat :=
  match acc, v with
  | NaN, _ => v
  | _, NaN => acc
  | Num a, Num b => if Qle_bool a b then Num b else Num a
  end.

Definition fmin_skipna (acc v : pyfloat) : pyfloat :=
  match acc, v with
  | NaN, _ => v
  | _, NaN => acc
  | Num a, Num b => if Qle_bool a b then Num a else Num b
  end.

Definition series_max (s : Series) : pyfloat := fold_left fmax_skipna s NaN.
Definition series_min (s : Series) : pyfloat := fold_left fmin_skipna s NaN.

(** [d[key] = value] on a dictionary kept in insertion order: an existing
    key keeps its place and takes the new value, a new key goes last. *)
Fixpoint dict_set {V : Type} (d : list (string * V)) (key : string)
    (value : V) : list (string * V) :=
  match d with
  | [] => [(key, value)]
  | (k, v) :: d' =>
      if String.eqb key k then (k, value) :: d'
      else (k, v) :: dict_set d' key value
  end.

(** ** Exceptions *)

Inductive exn : Type :=
  | ValueError (msg : string)
  | KeyError (key : string)
  | Exception (msg : string).

Inductive result (A : Type) : Type :=
  | Ok (a : A)
  | Raise (e : exn).

Arguments Ok {A} a.
Arguments Raise {A} e.

Definition bind {A B : Type} (r : result A) (k : A -> result B) : result B :=
  match r with
  | Ok a => k a
  | Raise e => Raise e
  end.

Notation "x <- r ;; k" := (bind r (fun x => k))
  (at level 100, r at next level, right associativity).

(** ** models/losses.py *)

Module SystemLosses.

(** The loss dictionary: category name to fraction, in insertion order. *)
Abbreviation LossParams := (list (string * Q)).

Record t : Type := { loss_params : LossParams }.

(** [name in d] and [d[name]] *)
Fixpoint dict_get (d : LossParams) (name : string) : option Q :=
  match d with
  | [] => None
  | (k, v) :: d' => if String.eqb name k then Some v else dict_get d' name
  end.

(** One turn of the loop of [apply_all_losses]. *)
Definition apply_loss_step (power_after_loss : Series) (item : string * Q)
  : Series :=
  let '(loss_name, loss_value) := item in
  if Qlt_bool 0 loss_value
  then series_mul_scalar power_after_loss (1 - loss_value)
  else power_after_loss.

Definition apply_all_losses (self : t) (dc_power : Series) : Series :=
  let power_after_loss := dc_power in
  fold_left apply_loss_step (loss_params self) power_after_loss.

Definition get_total_loss_factor (self : t) : Q :=
  let retention_factor := 1 in
  fold_left (fun retention_factor loss_value =>
               retention_factor * (1 - loss_value))
            ((loss_params self).*2) retention_factor.

Definition get_total_loss_percentage (self : t) : Q :=
  (1 - get_total_loss_factor self) * 100.

Definition get_system_efficiency (self : t) : Q :=
  get_total_loss_factor self.

Definition unknown_loss_message (loss_name : string) : string :=
  ("未知的损失类型: " ++ loss_name)%string.

Definition apply_individual_loss (self : t) (power : Series)
    (loss_name : string) : result Series :=
  match dict_get (loss_params self) loss_name with
  | None => Raise (ValueError (unknown_loss_message loss_name))
  | Some loss_value => Ok (series_mul_scalar power (1 - loss_value))
  end.

(** One entry of the dictionary of [get_loss_breakdown]. *)
Record BreakdownEntry : Type := {
  percentage : Q;
  energy_loss_kwh : Q
}.

(** One turn of the loop of [get_loss_breakdown]: the state is the
    dictionary built so far and the cumulative power. *)
Definition breakdown_step
    (state : list (string * BreakdownEntry) * Series) (item : string * Q)
  : list (string * BreakdownEntry) * Series :=
  let '(breakdown, cumulative_power) := state in
  let '(loss_name, loss_percentage) := item in
  if Qlt_bool 0 loss_percentage then
    let loss_power := series_mul_scalar cumulative_power loss_percentage in
    let loss_energy_kwh := series_sum loss_power in
    (dict_set breakdown loss_name
       {| percentage := loss_percentage * 100;
          energy_loss_kwh := loss_energy_kwh |},
     series_mul_scalar cumulative_power (1 - loss_percentage))
  else (breakdown, cumulative_power).

Definition get_loss_breakdown (self : t) (dc_power_series : Series)
  : list (string * BreakdownEntry) :=
  let '(breakdown, cumulative_power) :=
    fold_left breakdown_step (loss_params self) ([], dc_power_series) in
  let total_loss_energy :=
    series_sum dc_power_series - series_sum cumulative_power in
  dict_set breakdown "total"
    {| percentage := get_total_loss_percentage self;
       energy_loss_kwh := total_loss_energy |}.

(** The dictionary returned by [estimate_annual_loss_impact]. *)
Record LossImpact : Type := {
  original_dc_energy_kwh : Q;
  total_loss_energy_kwh : Q;
  final_dc_energy_kwh : Q;
  total_loss_percentage : Q;
  system_efficiency : Q
}.

Definition estimate_annual_loss_impact (self : t) (dc_energy_annual_kwh : Q)
  : LossImpact :=
  let total_loss_factor := get_total_loss_factor self in
  let final_energy := dc_energy_annual_kwh * total_loss_factor in
  let total_loss_energy := dc_energy_annual_kwh - final_energy in
  {| original_dc_energy_kwh := dc_energy_annual_kwh;
     total_loss_energy_kwh := total_loss_energy;
     final_dc_energy_kwh := final_energy;
     total_loss_percentage := get_total_loss_percentage self;
     system_efficiency := total_loss_factor * 100 |}.

End SystemLosses.

(** The product of the retained fractions, as the specification writes it:
    the product of (1 - L[i]) over all categories i. *)
Fixpoint retained_product (L : SystemLosses.LossParams) : Q :=
  match L with
  | [] => 1
  | (_, v) :: L' => (1 - v) * retained_product L'
  end.

(** The factor the loop of [apply_all_losses] multiplies by: a category
    whose value is not positive is skipped. *)
Fixpoint cascade_factor (L : SystemLosses.LossParams) : Q :=
  match L with
  | [] => 1
  | (_, v) :: L' => (if Qlt_bool 0 v then 1 - v else 1) * cascade_factor L'
  end.

(** ** config/system_params.py and config/loss_params.py

    The dictionaries [LOCATION], [SYSTEM], [MODULE] and [INVERTER] with the
    entries the simulator reads or a property names (descriptive entries such
    as the layer structure of the module are left out). *)

Module Location.
Record t : Type := {
  latitude : Q;
  longitude : Q;
  altitude : Q;
  timezone : string;
  name : string
}.
End Location.

Module System.
Record t : Type := {
  capacity_kw : Q;
  area_m2 : Q;
  tilt : Q;
  azimuth : Q;
  albedo : Q;
  mounting_type : string
}.
End System.

Module PVModule.
Record t : Type := {
  name : string;
  pmp : Q;
  gamma_pmp : Q;
  T_noct : Q;
  T_ref : Q;
  G_ref : Q
}.
End PVModule.

Module Inverter.
(** [eta_inv_ref] is read with [dict.get] and a default, so it may be
    absent. *)
Record t : Type := {
  type : string;
  name : string;
  pdc0 : Q;
  pac0 : Q;
  eta_inv_nom : Q;
  eta_inv_ref : option Q;
  pdc_min : Q;
  pdc_max : Q;
  vdc_min : Q;
  vdc_max : Q;
  vdc_nom : Q;
  mppt_low : Q;
  mppt_high : Q;
  quantity : Q
}.
End Inverter.

Definition LOCATION : Location.t := {|
  Location.latitude := 31.30;
  Location.longitude := 120.62;
  Location.altitude := 5;
  Location.timezone := "Asia/Shanghai";
  Location.name := "苏州"
|}.

Definition SYSTEM : System.t := {|
  System.capacity_kw := 1000;
  System.area_m2 := 5000;
  System.tilt := 3;
  System.azimuth := 180;
  System.albedo := 0.2;
  System.mounting_type := "roof_mounted"
|}.

Definition MODULE : PVModule.t := {|
  PVModule.name := "Standard 545W Mono-Si";
  PVModule.pmp := 545;
  PVModule.gamma_pmp := -0.0035;
  PVModule.T_noct := 50;
  PVModule.T_ref := 25;
  PVModule.G_ref := 1000
|}.

Definition INVERTER : Inverter.t := {|
  Inverter.type := "central";
  Inverter.name := "Central Inverter 1000kW";
  Inverter.pdc0 := 1000;
  Inverter.pac0 := 1000;
  Inverter.eta_inv_nom := 0.98;
  Inverter.eta_inv_ref := Some 0.9637;
  Inverter.pdc_min := 50;
  Inverter.pdc_max := 1050;
  Inverter.vdc_min := 450;
  Inverter.vdc_max := 1000;
  Inverter.vdc_nom := 700;
  Inverter.mppt_low := 500;
  Inverter.mppt_high := 850;
  Inverter.quantity := 1
|}.

Definition LOSSES : SystemLosses.LossParams := [
  ("soiling", 0.02);
  ("shading", 0.00);
  ("snow", 0.00);
  ("mismatch", 0.02);
  ("wiring", 0.02);
  ("connections", 0.005);
  ("lid", 0.015);
  ("nameplate_rating", 0.01);
  ("age", 0.00);
  ("availability", 0.01)
]%string.

(** The functions of [config/loss_params.py]. They read the module globals
    [LOSSES] and [LOSS_NAMES], which are arguments here. *)
Module loss_params.

Definition LOSS_NAMES : list (string * string) := [
  ("soiling", "灰层污染损失");
  ("shading", "阴影遮挡损失");
  ("snow", "积雪覆盖损失");
  ("mismatch", "组件失配损失");
  ("wiring", "直流线损");
  ("connections", "接头连接损失");
  ("lid", "光致衰减");
  ("nameplate_rating", "铭牌功率误差");
  ("age", "老化损失");
  ("availability", "系统可用性损失")
]%string.

Fixpoint getitem (d : list (string * string)) (key : string)
  : result string :=
  match d with
  | [] => Raise (KeyError key)
  | (k, v) :: d' => if String.eqb key k then Ok v else getitem d' key
  end.

Definition get_total_dc_loss (LOSSES : SystemLosses.LossParams) : Q :=
  let remaining_efficiency :=
    fold_left (fun remaining_efficiency (item : string * Q) =>
                 remaining_efficiency * (1 - item.2))
              LOSSES 1 in
  let total_loss := 1 - remaining_efficiency in
  total_loss.

Definition get_loss_breakdown (LOSSES : SystemLosses.LossParams)
    (LOSS_NAMES : list (string * string)) : result (list (string * Q)) :=
  fold_left
    (fun (acc : result (list (string * Q))) (item : string * Q) =>
       breakdown <- acc ;;
       if Qlt_bool 0 item.2 then
         name <- getitem LOSS_NAMES item.1 ;;
         Ok (dict_set breakdown name item.2)
       else Ok breakdown)
    LOSSES (Ok []).

Definition apply_dc_losses (LOSSES : SystemLosses.LossParams)
    (dc_power : Series) : Series :=
  series_mul_scalar dc_power (1 - get_total_dc_loss LOSSES).

Definition TOTAL_DC_LOSS : Q := get_total_dc_loss LOSSES.
Definition SYSTEM_EFFICIENCY : Q := 1 - TOTAL_DC_LOSS.

End loss_params.

(** ** The weather frame

    [fetch_tmy_data] returns a DataFrame indexed by [datetime] with the
    columns below; it is the list of its rows in index order. *)

Abbreviation Timestamp := Z.

Record WeatherSample : Type := {
  datetime : Timestamp;
  ghi : pyfloat;
  dni : pyfloat;
  dhi : pyfloat;
  temp_air : pyfloat;
  wind_speed : pyfloat
}.

Abbreviation WeatherDF := (list WeatherSample).

(** ** The pvlib interface

    Every pvlib model works element by element on its series arguments and
    returns a series on the same index, so each is given by its action on one
    row. *)

Record SolarPosition : Type := {
  sp_apparent_zenith : pyfloat;
  sp_azimuth : pyfloat
}.

Record PoaIrradiance : Type := {
  irr_poa_global : pyfloat;
  irr_poa_direct : pyfloat;
  irr_poa_diffuse : pyfloat;
  irr_poa_sky_diffuse : pyfloat;
  irr_poa_ground_diffuse : pyfloat
}.

Class Pvlib : Type := {
  (** [solarposition.get_solarposition(time, latitude, longitude, altitude,
      temperature)] *)
  get_solarposition : Timestamp -> Q -> Q -> Q -> pyfloat -> SolarPosition;
  (** [irradiance.get_extra_radiation(time)] *)
  get_extra_radiation : Timestamp -> pyfloat;
  (** [atmosphere.get_relative_airmass(zenith)] *)
  get_relative_airmass : pyfloat -> pyfloat;
  (** [atmosphere.get_absolute_airmass(airmass_relative)] *)
  get_absolute_airmass : pyfloat -> pyfloat;
  (** [irradiance.get_total_irradiance(surface_tilt, surface_azimuth,
      solar_zenith, solar_azimuth, dni, ghi, dhi, dni_extra, airmass, albedo,
      model='perez')] *)
  get_total_irradiance_perez :
    Q -> Q -> pyfloat -> pyfloat -> pyfloat -> pyfloat -> pyfloat ->
    pyfloat -> pyfloat -> Q -> PoaIrradiance;
  (** [irradiance.aoi(surface_tilt, surface_azimuth, solar_zenith,
      solar_azimuth)] *)
  irradiance_aoi : Q -> Q -> pyfloat -> pyfloat -> pyfloat;
  (** [iam.physical(aoi, n, K, L)] *)
  iam_physical : pyfloat -> Q -> Q -> Q -> pyfloat;
  (** [temperature.pvsyst_cell(poa_global, temp_air, wind_speed, u_c, u_v)] *)
  pvsyst_cell : pyfloat -> pyfloat -> pyfloat -> Q -> Q -> pyfloat;
  (** [inverter.pvwatts(pdc, pdc0, eta_inv_nom, eta_inv_ref)] *)
  inverter_pvwatts : pyfloat -> Q -> Q -> Q -> pyfloat
}.

(** Modelled from the spec: [pvlib.temperature.faiman] is third-party code
    and not part of the repository. Section 4.4:
    cell_temp = temp_air + poa_global / (u0 + u1 * wind_speed). *)
Definition faiman (poa_global temp_air wind_speed : pyfloat) (u0 u1 : Q)
  : pyfloat :=
  fadd temp_air (fdiv poa_global (fadd (Num u0) (fmul (Num u1) wind_speed))).

(** Modelled from the spec: [pvlib.pvsystem.pvwatts_dc] is third-party code
    and not part of the repository. Section 4.5:
    dc_power = pdc0 * (effective_poa / 1000) * (1 + gamma_pmp * (cell_temp - T_ref)). *)
Definition pvwatts_dc (effective_irradiance temp_cell : pyfloat)
    (pdc0 gamma_pdc temp_ref : Q) : pyfloat :=
  fmul (fmul (Num pdc0) (fdiv effective_irradiance (Num 1000)))
       (fadd (Num 1) (fmul (Num gamma_pdc) (fsub temp_cell (Num temp_ref)))).

(** Positional application of a series of functions to a series of
    arguments: a call of an element-wise function on several columns is
    [f <$> a <*> b <*> c]. *)
Definition zip_ap {A B : Type} (fs : list (A -> B)) (xs : list A) : list B :=
  zip_with (fun f x => f x) fs xs.

Infix "<*>" := zip_ap (at level 61, left associativity).

(** ** models/irradiance.py *)

Module IrradianceModel.

Record t : Type := {
  latitude : Q;
  longitude : Q;
  altitude : Q;
  tilt : Q;
  azimuth : Q;
  albedo : Q
}.

Definition __init__ (latitude longitude altitude tilt azimuth albedo : Q)
  : result t :=
  Ok {| latitude := latitude; longitude := longitude; altitude := altitude;
        tilt := tilt; azimuth := azimuth; albedo := albedo |}.

(** The frame returned by [calculate_poa]: the weather columns and the
    columns the method adds, all on the index of the weather frame. *)
Record PoaDF : Type := {
  index : list Timestamp;
  col_ghi : Series;
  col_dni : Series;
  col_dhi : Series;
  col_temp_air : Series;
  col_wind_speed : Series;
  solar_zenith : Series;
  solar_azimuth : Series;
  poa_global : Series;
  poa_direct : Series;
  poa_diffuse : Series;
  poa_sky_diffuse : Series;
  poa_ground_diffuse : Series;
  aoi : Series;
  iam : Series;
  poa_effective : Series
}.

Section Methods.
Context {pvlib : Pvlib}.

Definition _get_solar_position (self : t) (weather_df : WeatherDF)
  : list SolarPosition :=
  (fun time temperature =>
     get_solarposition time (latitude self) (longitude self)
                       (altitude self) temperature)
    <$> (datetime <$> weather_df) <*> (temp_air <$> weather_df).

Definition _calculate_poa_components (self : t) (weather_df : WeatherDF)
    (solar_position : list SolarPosition) : list PoaIrradiance :=
  let dni := dni <$> weather_df in
  let dhi := dhi <$> weather_df in
  let ghi := ghi <$> weather_df in
  let dni_extra := get_extra_radiation <$> (datetime <$> weather_df) in
  let airmass :=
    get_relative_airmass <$> (sp_apparent_zenith <$> solar_position) in
  let airmass_absolute := get_absolute_airmass <$> airmass in
  (fun solar_zenith solar_azimuth dni ghi dhi dni_extra airmass =>
     get_total_irradiance_perez (tilt self) (azimuth self)
       solar_zenith solar_azimuth dni ghi dhi dni_extra airmass
       (albedo self))
    <$> (sp_apparent_zenith <$> solar_position)
    <*> (sp_azimuth <$> solar_position)
    <*> dni <*> ghi <*> dhi <*> dni_extra <*> airmass_absolute.

Definition _calculate_aoi (self : t) (solar_position : list SolarPosition)
  : Series :=
  irradiance_aoi (tilt self) (azimuth self)
    <$> (sp_apparent_zenith <$> solar_position)
    <*> (sp_azimuth <$> solar_position).

Definition _calculate_iam (self : t) (aoi : Series) : Series :=
  let iam_value := (fun a => iam_physical a 1.526 4.0 0.002) <$> aoi in
  let iam_value := fillna 0 iam_value in
  let iam_value := clip (Some 0) (Some 1) iam_value in
  iam_value.

Definition calculate_poa (self : t) (weather_df : WeatherDF) : PoaDF :=
  let solar_position := _get_solar_position self weather_df in
  let poa_components :=
    _calculate_poa_components self weather_df solar_position in
  let aoi := _calculate_aoi self solar_position in
  let iam_value := _calculate_iam self aoi in
  let poa_global := irr_poa_global <$> poa_components in
  let poa_effective := series_mul poa_global iam_value in
  let poa_effective := clip (Some 0) None poa_effective in
  {| index := datetime <$> weather_df;
     col_ghi := ghi <$> weather_df;
     col_dni := dni <$> weather_df;
     col_dhi := dhi <$> weather_df;
     col_temp_air := temp_air <$> weather_df;
     col_wind_speed := wind_speed <$> weather_df;
     solar_zenith := sp_apparent_zenith <$> solar_position;
     solar_azimuth := sp_azimuth <$> solar_position;
     poa_global := poa_global;
     poa_direct := irr_poa_direct <$> poa_components;
     poa_diffuse := irr_poa_diffuse <$> poa_components;
     poa_sky_diffuse := irr_poa_sky_diffuse <$> poa_components;
     poa_ground_diffuse := irr_poa_ground_diffuse <$> poa_components;
     aoi := aoi;
     iam := iam_value;
     poa_effective := poa_effective |}.

End Methods.

(** The dictionary returned by [get_annual_irradiance_summary]. *)
Record IrradianceSummary : Type := {
  annual_ghi_kwh_m2 : Q;
  annual_poa_kwh_m2 : Q;
  annual_poa_effective_kwh_m2 : Q;
  avg_daily_ghi_kwh_m2 : Q;
  avg_daily_poa_kwh_m2 : Q;
  poa_to_ghi_ratio : Q;
  iam_loss_percent : Q
}.

Definition get_annual_irradiance_summary (self : t) (poa_df : PoaDF)
  : IrradianceSummary :=
  {| annual_ghi_kwh_m2 := series_sum (col_ghi poa_df) / 1000;
     annual_poa_kwh_m2 := series_sum (poa_global poa_df) / 1000;
     annual_poa_effective_kwh_m2 :=
       series_sum (poa_effective poa_df) / 1000;
     avg_daily_ghi_kwh_m2 := series_sum (col_ghi poa_df) / 1000 / 365;
     avg_daily_poa_kwh_m2 := series_sum (poa_global poa_df) / 1000 / 365;
     poa_to_ghi_ratio :=
       if Qlt_bool 0 (series_sum (col_ghi poa_df))
       then series_sum (poa_global poa_df) / series_sum (col_ghi poa_df)
       else 0;
     iam_loss_percent :=
       if Qlt_bool 0 (series_sum (poa_global poa_df))
       then (1 - series_sum (poa_effective poa_df)
                 / series_sum (poa_global poa_df)) * 100
       else 0 |}.

End IrradianceModel.

(** ** models/temperature.py *)

Module TemperatureModel.

(** The parameter dictionary of the selected model. *)
Abbreviation Params := (list (string * Q)).

Fixpoint getitem (d : Params) (key : string) : result Q :=
  match d with
  | [] => Raise (KeyError key)
  | (k, v) :: d' => if String.eqb key k then Ok v else getitem d' key
  end.

Definition _get_temperature_model_params (mounting_type model : string)
  : Params :=
  if String.eqb model "faiman" then
    if String.eqb mounting_type "roof_mounted" then
      [("u0", 29.0); ("u1", 1.0)]%string
    else if String.eqb mounting_type "open_rack" then
      [("u0", 25.0); ("u1", 6.84)]%string
    else
      [("u0", 26.0); ("u1", 1.2)]%string
  else if String.eqb model "pvsyst" then
    if String.eqb mounting_type "roof_mounted" then
      [("u_c", 29.0); ("u_v", 0.0)]%string
    else
      [("u_c", 25.0); ("u_v", 1.2)]%string
  else
    [("u0", 25.0); ("u1", 6.84)]%string.

Record t : Type := {
  mounting_type : string;
  model : string;
  params : Params
}.

Definition __init__ (mounting_type model : string) : result t :=
  Ok {| mounting_type := mounting_type;
        model := model;
        params := _get_temperature_model_params mounting_type model |}.

Section Methods.
Context {pvlib : Pvlib}.

Definition calculate_cell_temperature (self : t)
    (poa_global temp_air wind_speed : Series) : result Series :=
  cell_temp <-
    (if String.eqb (model self) "faiman" then
       u0 <- getitem (params self) "u0" ;;
       u1 <- getitem (params self) "u1" ;;
       Ok ((fun p t w => faiman p t w u0 u1)
             <$> poa_global <*> temp_air <*> wind_speed)
     else if String.eqb (model self) "pvsyst" then
       u_c <- getitem (params self) "u_c" ;;
       u_v <- getitem (params self) "u_v" ;;
       Ok ((fun p t w => pvsyst_cell p t w u_c u_v)
             <$> poa_global <*> temp_air <*> wind_speed)
     else
       let noct : Q :=
         if String.eqb (mounting_type self) "roof_mounted"
         then 50 else 45 in
       Ok (zip_with fadd temp_air
             (series_mul_scalar poa_global ((noct - 20) / 800)))) ;;
  let cell_temp :=
    np_where (series_le_scalar poa_global 0) temp_air cell_temp in
  let cell_temp := np_maximum cell_temp temp_air in
  let cell_temp := clip (Some (-40)) (Some 85) cell_temp in
  Ok cell_temp.

End Methods.

(** The dictionary returned by [get_temperature_statistics]. *)
Record TemperatureStatistics : Type := {
  avg_ambient_temp : pyfloat;
  avg_cell_temp : pyfloat;
  avg_cell_temp_daytime : pyfloat;
  max_cell_temp : pyfloat;
  min_cell_temp : pyfloat;
  avg_temperature_rise : pyfloat;
  avg_temperature_rise_daytime : pyfloat;
  max_temperature_rise : pyfloat;
  hours_above_25C : nat;
  hours_above_45C : nat;
  hours_above_65C : nat
}.

Definition get_temperature_statistics (self : t)
    (cell_temp temp_air poa_global : Series) : TemperatureStatistics :=
  let daytime_mask := series_gt_scalar poa_global 10 in
  {| avg_ambient_temp := series_mean temp_air;
     avg_cell_temp := series_mean cell_temp;
     avg_cell_temp_daytime :=
       series_mean (boolean_index cell_temp daytime_mask);
     max_cell_temp := series_max cell_temp;
     min_cell_temp := series_min cell_temp;
     avg_temperature_rise := series_mean (series_sub cell_temp temp_air);
     avg_temperature_rise_daytime :=
       series_mean (series_sub (boolean_index cell_temp daytime_mask)
                               (boolean_index temp_air daytime_mask));
     max_temperature_rise := series_max (series_sub cell_temp temp_air);
     hours_above_25C := bool_sum (series_gt_scalar cell_temp 25);
     hours_above_45C := bool_sum (series_gt_scalar cell_temp 45);
     hours_above_65C := bool_sum (series_gt_scalar cell_temp 65) |}.

(** [temp_ref] and [gamma_pmp] are keyword arguments with the defaults 25
    and -0.0035. *)
Definition estimate_temperature_loss (self : t) (cell_temp : Series)
    (temp_ref gamma_pmp : option Q) : Series :=
  let temp_ref := default 25 temp_ref in
  let gamma_pmp := default (-0.0035) gamma_pmp in
  let temp_coefficient :=
    (fun v => fadd (Num 1) (fmul (Num gamma_pmp) (fsub v (Num temp_ref))))
      <$> cell_temp in
  let temp_coefficient := clip (Some 0.5) (Some 1.1) temp_coefficient in
  temp_coefficient.

End TemperatureModel.

(** ** data/weather_fetcher.py

    Only the construction of the fetcher belongs to the core; the retrieval
    itself is input/output, and its outcome (the weather frame, or the
    exception it raised) is an argument of [run_simulation]. *)

Module PVGISWeatherFetcher.

Record t : Type := {
  latitude : Q;
  longitude : Q;
  altitude : Q;
  base_url : string
}.

Definition __init__ (latitude longitude altitude : Q) : result t :=
  Ok {| latitude := latitude; longitude := longitude; altitude := altitude;
        base_url := "https://re.jrc.ec.europa.eu/api/v5_2" |}.

(** The dictionary returned by [validate_data]. The frame of the model has
    the five columns the simulator reads, so the per-column entries range
    over these five. *)
Record Validation : Type := {
  total_hours : nat;
  expected_hours : nat;
  missing_values : list (string * nat);
  data_range : list (string * (pyfloat * pyfloat));
  negative_irradiance : list (string * nat);
  is_complete : bool;
  is_physically_valid : bool
}.

Definition validate_data (self : t) (df : WeatherDF) : Validation :=
  let column_range (s : Series) := (series_min s, series_max s) in
  let negative (s : Series) := bool_sum (series_lt_scalar s 0) in
  let total_hours := length df in
  let negative_ghi := negative (ghi <$> df) in
  let negative_dni := negative (dni <$> df) in
  let negative_dhi := negative (dhi <$> df) in
  {| total_hours := total_hours;
     expected_hours := 8760;
     missing_values :=
       [("ghi", isnull_sum (ghi <$> df));
        ("dni", isnull_sum (dni <$> df));
        ("dhi", isnull_sum (dhi <$> df));
        ("temp_air", isnull_sum (temp_air <$> df));
        ("wind_speed", isnull_sum (wind_speed <$> df))]%string;
     data_range :=
       [("ghi", column_range (ghi <$> df));
        ("dni", column_range (dni <$> df));
        ("dhi", column_range (dhi <$> df));
        ("temp_air", column_range (temp_air <$> df));
        ("wind_speed", column_range (wind_speed <$> df))]%string;
     negative_irradiance :=
       [("ghi", negative_ghi); ("dni", negative_dni);
        ("dhi", negative_dhi)]%string;
     is_complete := Nat.eqb total_hours 8760;
     is_physically_valid :=
       forallb (fun b : bool => b)
         [Nat.eqb negative_ghi 0; Nat.eqb negative_dni 0;
          Nat.eqb negative_dhi 0] |}.

End PVGISWeatherFetcher.

(** ** core/pv_simulator.py *)

Module PVSimulator.

Record t : Type := {
  location : Location.t;
  system : System.t;
  module : PVModule.t;
  inverter : Inverter.t;
  loss_params : SystemLosses.LossParams;
  weather_fetcher : PVGISWeatherFetcher.t;
  irradiance_model : IrradianceModel.t;
  temperature_model : TemperatureModel.t;
  loss_model : SystemLosses.t
}.

Definition __init__ (location_params : Location.t)
    (system_params : System.t) (module_params : PVModule.t)
    (inverter_params : Inverter.t)
    (loss_params : SystemLosses.LossParams) : result t :=
  weather_fetcher <-
    PVGISWeatherFetcher.__init__
      (Location.latitude location_params)
      (Location.longitude location_params)
      (Location.altitude location_params) ;;
  irradiance_model <-
    IrradianceModel.__init__
      (Location.latitude location_params)
      (Location.longitude location_params)
      (Location.altitude location_params)
      (System.tilt system_params)
      (System.azimuth system_params)
      (System.albedo system_params) ;;
  temperature_model <-
    TemperatureModel.__init__ (System.mounting_type system_params)
                              "faiman" ;;
  Ok {| location := location_params;
        system := system_params;
        module := module_params;
        inverter := inverter_params;
        loss_params := loss_params;
        weather_fetcher := weather_fetcher;
        irradiance_model := irradiance_model;
        temperature_model := temperature_model;
        loss_model := {| SystemLosses.loss_params := loss_params |} |}.

(** The frame [poa_df] at the end of [run_simulation]: the frame of
    [calculate_poa] and the columns the later stages add to it. *)
Record SimDF : Type := {
  poa_df : IrradianceModel.PoaDF;
  cell_temp : Series;
  dc_power_kw : Series;
  dc_power_after_loss_kw : Series;
  ac_power_kw : Series;
  energy_kwh : Series
}.

(** The frame returned by [_format_results]: after [reset_index] the index
    is the column [datetime], next to the column [energy_kwh]. *)
Record ResultsDF : Type := {
  res_datetime : list Timestamp;
  res_energy_kwh : Series
}.

(** The rows of the result frame. *)
Definition rows (results_df : ResultsDF) : list (Timestamp * pyfloat) :=
  zip (res_datetime results_df) (res_energy_kwh results_df).

Section Methods.
Context {pvlib : Pvlib}.

Definition _calculate_dc_power (self : t)
    (poa_effective cell_temp : Series) : Series :=
  let pdc0 := System.capacity_kw (system self) in
  let gamma_pdc := PVModule.gamma_pmp (module self) in
  let temp_ref := PVModule.T_ref (module self) in
  let dc_power :=
    (fun effective_irradiance temp_cell =>
       pvwatts_dc effective_irradiance temp_cell pdc0 gamma_pdc temp_ref)
      <$> poa_effective <*> cell_temp in
  clip (Some 0) None dc_power.

Definition _calculate_ac_power (self : t) (dc_power : Series) : Series :=
  let pdc0 := Inverter.pdc0 (inverter self) in
  let eta_inv_nom := Inverter.eta_inv_nom (inverter self) in
  let eta_inv_ref :=
    default 0.9637 (Inverter.eta_inv_ref (inverter self)) in
  let ac_power :=
    (fun pdc => inverter_pvwatts pdc pdc0 eta_inv_nom eta_inv_ref)
      <$> dc_power in
  let pac_max := Inverter.pac0 (inverter self) in
  clip (Some 0) (Some pac_max) ac_power.

Definition _format_results (poa_df : SimDF) : ResultsDF :=
  {| res_datetime := IrradianceModel.index (PVSimulator.poa_df poa_df);
     res_energy_kwh := fillna 0 (energy_kwh poa_df) |}.

(** Steps 1 to 7 of [run_simulation]: the frame [poa_df] as it is handed
    to [_format_results]. [fetch_tmy_data] is the outcome of
    [self.weather_fetcher.fetch_tmy_data()]. *)
Definition run_stages (self : t) (fetch_tmy_data : result WeatherDF)
  : result SimDF :=
  weather_df <- fetch_tmy_data ;;
  let poa_df :=
    IrradianceModel.calculate_poa (irradiance_model self) weather_df in
  cell_temp <-
    TemperatureModel.calculate_cell_temperature (temperature_model self)
      (IrradianceModel.poa_global poa_df)
      (IrradianceModel.col_temp_air poa_df)
      (IrradianceModel.col_wind_speed poa_df) ;;
  let dc_power :=
    _calculate_dc_power self (IrradianceModel.poa_effective poa_df)
                        cell_temp in
  let dc_power_after_loss :=
    SystemLosses.apply_all_losses (loss_model self) dc_power in
  let ac_power := _calculate_ac_power self dc_power_after_loss in
  Ok {| poa_df := poa_df;
        cell_temp := cell_temp;
        dc_power_kw := dc_power;
        dc_power_after_loss_kw := dc_power_after_loss;
        ac_power_kw := ac_power;
        energy_kwh := ac_power |}.

Definition run_simulation (self : t) (fetch_tmy_data : result WeatherDF)
  : result ResultsDF :=
  poa_df <- run_stages self fetch_tmy_data ;;
  let results_df := _format_results poa_df in
  Ok results_df.

End Methods.

End PVSimulator.

(** ** The ranges of the specification

    Section 3 of the specification: tilt in [0,90], azimuth in [0,360),
    albedo in [0,1]. This predicate follows the specification's words; the
    code has no counterpart. *)
Definition site_geometry_in_range (s : System.t) : bool :=
  Qle_bool 0 (System.tilt s) && Qle_bool (System.tilt s) 90
  && Qle_bool 0 (System.azimuth s) && Qlt_bool (System.azimuth s) 360
  && Qle_bool 0 (System.albedo s) && Qle_bool (System.albedo s) 1.

(** ** A sample pvlib

    One concrete implementation of the interface, to run the pipeline on
    sample inputs: the sun stands still at 60 degrees from the zenith, due
    south; the sky is isotropic; the glazing transmits everything below 90
    degrees of incidence; the inverter follows the PVWatts curve. No theorem
    depends on it. *)
Definition sample_inverter (pdc : pyfloat) (pdc0 eta_inv_nom eta_inv_ref : Q)
  : pyfloat :=
  let pac0 := eta_inv_nom * pdc0 in
  let zeta := fdiv pdc (Num pdc0) in
  let eta :=
    match pdc with
    | Num p =>
        if Qeq_bool p 0 then Num 0
        else fmul (Num (eta_inv_nom / eta_inv_ref))
               (fadd (fsub (fmul (Num (-0.0162)) zeta)
                           (fdiv (Num 0.0059) zeta))
                     (Num 0.9858))
    | NaN => NaN
    end in
  let power_ac := fmul eta pdc in
  match power_ac with
  | Num p => Num (Qmax 0 (Qmin pac0 p))
  | NaN => NaN
  end.

Definition sample_pvlib : Pvlib := {|
  get_solarposition _ _ _ _ _ :=
    {| sp_apparent_zenith := Num 60; sp_azimuth := Num 180 |};
  get_extra_radiation _ := Num 1367;
  get_relative_airmass _ := Num 2;
  get_absolute_airmass am := am;
  get_total_irradiance_perez _ _ _ _ dni _ dhi _ _ _ :=
    let direct := fmul dni (Num 0.5) in
    {| irr_poa_global := fadd direct dhi;
       irr_poa_direct := direct;
       irr_poa_diffuse := dhi;
       irr_poa_sky_diffuse := dhi;
       irr_poa_ground_diffuse := Num 0 |};
  irradiance_aoi _ _ zenith _ := zenith;
  iam_physical a _ _ _ := if fle a (Num 89.9) then Num 1 else NaN;
  pvsyst_cell p t w u_c u_v :=
    fadd t (fdiv (fmul p (Num 0.81)) (fadd (Num u_c) (fmul (Num u_v) w)));
  inverter_pvwatts := sample_inverter
|}.

(** A system dictionary outside every range of the specification. *)
Definition OUT_OF_RANGE_SYSTEM : System.t := {|
  System.capacity_kw := 1000;
  System.area_m2 := 5000;
  System.tilt := 120;
  System.azimuth := 400;
  System.albedo := 1.5;
  System.mounting_type := "roof_mounted"
|}.

(** Three hours of weather: a night hour, a clear hour, and an hour of
    irradiance beyond anything physical (to drive the inverter into
    clipping). *)
Definition sample_weather : WeatherDF := [
  {| datetime := 0%Z; ghi := Num 0; dni := Num 0; dhi := Num 0;
     temp_air := Num 12; wind_speed := Num 3 |};
  {| datetime := 3600%Z; ghi := Num 500; dni := Num 600; dhi := Num 100;
     temp_air := Num 20; wind_speed := Num 2 |};
  {| datetime := 7200%Z; ghi := Num 1500; dni := Num 2000; dhi := Num 400;
     temp_air := Num 20; wind_speed := Num 2 |}
].


Definition with_dc_bounds (inv : Inverter.t)
    (pdc_min pdc_max vdc_min vdc_max : Q) : Inverter.t := {|
  Inverter.type := Inverter.type inv;
  Inverter.name := Inverter.name inv;
  Inverter.pdc0 := Inverter.pdc0 inv;
  Inverter.pac0 := Inverter.pac0 inv;
  Inverter.eta_inv_nom := Inverter.eta_inv_nom inv;
  Inverter.eta_inv_ref := Inverter.eta_inv_ref inv;
  Inverter.pdc_min := pdc_min;
  Inverter.pdc_max := pdc_max;
  Inverter.vdc_min := vdc_min;
  Inverter.vdc_max := vdc_max;
  Inverter.vdc_nom := Inverter.vdc_nom inv;
  Inverter.mppt_low := Inverter.mppt_low inv;
  Inverter.mppt_high := Inverter.mppt_high inv;
  Inverter.quantity := Inverter.quantity inv
|}.

(** [INVERTER]-like dictionaries with or without the entry
    [eta_inv_ref]. *)
Definition with_eta_inv_ref (inv : Inverter.t) (eta_inv_ref : option Q)
  : Inverter.t := {|
  Inverter.type := Inverter.type inv;
  Inverter.name := Inverter.name inv;
  Inverter.pdc0 := Inverter.pdc0 inv;
  Inverter.pac0 := Inverter.pac0 inv;
  Inverter.eta_inv_nom := Inverter.eta_inv_nom inv;
  Inverter.eta_inv_ref := eta_inv_ref;
  Inverter.pdc_min := Inverter.pdc_min inv;
  Inverter.pdc_max := Inverter.pdc_max inv;
  Inverter.vdc_min := Inverter.vdc_min inv;
  Inverter.vdc_max := Inverter.vdc_max inv;
  Inverter.vdc_nom := Inverter.vdc_nom inv;
  Inverter.mppt_low := Inverter.mppt_low inv;
  Inverter.mppt_high := Inverter.mppt_high inv;
  Inverter.quantity := Inverter.quantity inv
|}.

(** Two inverter dictionaries that differ at most in the entries [pdc_min],
    [pdc_max], [vdc_min] and [vdc_max]. *)
Definition same_except_dc_bounds (inv1 inv2 : Inverter.t) : Prop :=
  Inverter.type inv1 = Inverter.type inv2
  /\ Inverter.name inv1 = Inverter.name inv2
  /\ Inverter.pdc0 inv1 = Inverter.pdc0 inv2
  /\ Inverter.pac0 inv1 = Inverter.pac0 inv2
  /\ Inverter.eta_inv_nom inv1 = Inverter.eta_inv_nom inv2
  /\ Inverter.eta_inv_ref inv1 = Inverter.eta_inv_ref inv2
  /\ Inverter.vdc_nom inv1 = Inverter.vdc_nom inv2
  /\ Inverter.mppt_low inv1 = Inverter.mppt_low inv2
  /\ Inverter.mppt_high inv1 = Inverter.mppt_high inv2
  /\ Inverter.quantity inv1 = Inverter.quantity inv2.

(** ** Views used to state properties of the loss model *)

(** A caller that applies the categories one at a time, by name. *)
Definition apply_losses_in_turn (self : SystemLosses.t)
    (names : list string) (power : Series) : result Series :=
  fold_left (fun (acc : result Series) (loss_name : string) =>
               power <- acc ;;
               SystemLosses.apply_individual_loss self power loss_name)
            names (Ok power).

(** The rows [get_loss_breakdown] writes for the categories, one per
    positive value, each computed on the power left by the categories
    before it. *)
Fixpoint breakdown_rows (L : SystemLosses.LossParams)
    (cumulative_power : Series)
  : list (string * SystemLosses.BreakdownEntry) :=
  match L with
  | [] => []
  | (k, v) :: L' =>
      if Qlt_bool 0 v then
        (k, {| SystemLosses.percentage := v * 100;
               SystemLosses.energy_loss_kwh :=
                 series_sum (series_mul_scalar cumulative_power v) |})
          :: breakdown_rows L' (series_mul_scalar cumulative_power (1 - v))
      else breakdown_rows L' cumulative_power
  end.

(** The categories the cascade applies. *)
Definition positive_losses (L : SystemLosses.LossParams)
  : SystemLosses.LossParams :=
  filter (fun kv : string * Q => Qlt_bool 0 kv.2 = true) L.

(** A float that, when it is a number, lies between two bounds. *)
Definition within (lo hi : Q) (v : pyfloat) : Prop :=
  match v with
  | NaN => True
  | Num x => lo <= x <= hi
  end.

(** A float that is a negative number. *)
Definition is_negative (v : pyfloat) : Prop :=
  match v with
  | NaN => False
  | Num x => x < 0
  end.

(** ** The loss cascade on binary64 numbers

    The two methods of [SystemLosses] that multiply retained fractions, with
    the program's own arithmetic: IEEE 754 binary64 with rounding to
    nearest. The literals are the doubles Python reads from the same
    decimals. *)

Module Float64.
Import PrimFloat.

Definition apply_loss_step (power_after_loss : list float)
    (item : string * float) : list float :=
  let '(loss_name, loss_value) := item in
  if ltb 0 loss_value
  then List.map (fun p => mul p (sub 1 loss_value)) power_after_loss
  else power_after_loss.

Definition apply_all_losses (loss_params : list (string * float))
    (dc_power : list float) : list float :=
  let power_after_loss := dc_power in
  fold_left apply_loss_step loss_params power_after_loss.

Definition get_total_loss_factor (loss_params : list (string * float))
  : float :=
  let retention_factor := 1%float in
  fold_left (fun retention_factor loss_value =>
               mul retention_factor (sub 1 loss_value))
            (loss_params.*2) retention_factor.

(** One power value multiplied in turn by the retained fraction of every
    category with a positive value, each product rounded. *)
Definition multiply_in_turn (loss_params : list (string * float))
    (p : float) : float :=
  fold_left (fun p (item : string * float) =>
               if ltb 0 item.2 then mul p (sub 1 item.2) else p)
            loss_params p.

(** [LOSSES] of [config/loss_params.py]. *)
Definition LOSSES : list (string * float) := [
  ("soiling"%string, 0.02%float);
  ("shading"%string, 0.00%float);
  ("snow"%string, 0.00%float);
  ("mismatch"%string, 0.02%float);
  ("wiring"%string, 0.02%float);
  ("connections"%string, 0.005%float);
  ("lid"%string, 0.015%float);
  ("nameplate_rating"%string, 0.01%float);
  ("age"%string, 0.00%float);
  ("availability"%string, 0.01%float)
].

(** The same categories with [connections] moved behind [lid] and
    [nameplate_rating]. *)
Definition LOSSES_reordered : list (string * float) := [
  ("soiling"%string, 0.02%float);
  ("shading"%string, 0.00%float);
  ("snow"%string, 0.00%float);
  ("mismatch"%string, 0.02%float);
  ("wiring"%string, 0.02%float);
  ("lid"%string, 0.015%float);
  ("nameplate_rating"%string, 0.01%float);
  ("connections"%string, 0.005%float);
  ("age"%string, 0.00%float);
  ("availability"%string, 0.01%float)
].

End Float64.

(** * Properties *)

(** ** Floats and series *)

Section FloatFacts.

#[global] Instance feq_equiv : Equivalence feq.
Proof.
  split.
  - intros [|x]; simpl; [exact I | reflexivity].
  - intros [|x] [|y]; simpl; try tauto. intros E; symmetry; exact E.
  - intros [|x] [|y] [|z]; simpl; try tauto. intros E1 E2.
    rewrite E1; exact E2.
Qed.

#[global] Instance fmul_proper : Proper (feq ==> feq ==> feq) fmul.
Proof.
  intros [|x] [|x'] Ex [|y] [|y'] Ey; simpl in *; try tauto.
  rewrite Ex, Ey; reflexivity.
Qed.

Lemma Qlt_bool_iff (x y : Q) : Qlt_bool x y = true <-> x < y.
Proof.
  unfold Qlt_bool. rewrite negb_true_iff.
  destruct (Qle_bool y x) eqn:E.
  - apply Qle_bool_iff in E. split; [discriminate | intros L; lra].
  - split; [intros _ | reflexivity].
    destruct (Qlt_le_dec x y) as [L|L]; [exact L |].
    apply Qle_bool_iff in L. congruence.
Qed.

Lemma Qle_bool_false (x y : Q) : Qle_bool x y = false <-> y < x.
Proof.
  pose proof (Qlt_bool_iff y x) as I. unfold Qlt_bool in I.
  rewrite negb_true_iff in I. exact I.
Qed.

(** A clipped number lies between the thresholds. *)
Lemma clip_value_Num (lo hi x : Q) :
  lo <= hi ->
  exists y, clip_value (Some lo) (Some hi) (Num x) = Num y
            /\ lo <= y <= hi
            /\ (lo <= x <= hi -> y = x)
            /\ (hi < x -> y = hi)
            /\ (x < lo -> y = lo).
Proof.
  intros Hlh. unfold clip_value.
  apply Qle_bool_iff in Hlh as Hb. rewrite Hb. simpl.
  destruct (Qle_bool lo x) eqn:E1; destruct (Qle_bool x hi) eqn:E2; simpl;
    try apply Qle_bool_iff in E1; try apply Qle_bool_iff in E2;
    try apply Qle_bool_false in E1; try apply Qle_bool_false in E2;
    eexists; (split; [reflexivity |]); repeat split; intros; try lra.
Qed.

Lemma clip_value_lower_Num (lo x : Q) :
  exists y, clip_value (Some lo) None (Num x) = Num y
            /\ lo <= y /\ y == Qmax lo x.
Proof.
  unfold clip_value. simpl.
  destruct (Qle_bool lo x) eqn:E; simpl.
  - apply Qle_bool_iff in E. exists x. repeat split; [exact E |].
    symmetry. apply Q.max_r. exact E.
  - apply Qle_bool_false in E. exists lo. repeat split; [lra |].
    symmetry. apply Q.max_l. lra.
Qed.

Lemma clip_value_NaN (lower upper : option Q) :
  clip_value lower upper NaN = NaN.
Proof.
  unfold clip_value.
  destruct lower as [lo|], upper as [hi|]; simpl; try reflexivity.
  destruct (Qle_bool lo hi); reflexivity.
Qed.

(** Columns computed from one frame: element-wise calls collapse to one
    map over the rows. *)
Lemma zip_with_fmap_same {X A B C : Type} (f : A -> B -> C)
    (g : X -> A) (h : X -> B) (l : list X) :
  zip_with f (g <$> l) (h <$> l) = (fun x => f (g x) (h x)) <$> l.
Proof. induction l as [|x l IH]; csimpl; [reflexivity | by f_equal]. Qed.

Lemma zip_ap_fmap_same {X A B : Type} (f : X -> A -> B) (g : X -> A)
    (l : list X) :
  (f <$> l) <*> (g <$> l) = (fun x => f x (g x)) <$> l.
Proof. exact (zip_with_fmap_same (fun k a => k a) f g l). Qed.

Lemma zip_fmap_same {X A B : Type} (g : X -> A) (h : X -> B) (l : list X) :
  zip (g <$> l) (h <$> l) = (fun x => (g x, h x)) <$> l.
Proof. exact (zip_with_fmap_same pair g h l). Qed.

Lemma lookup_zip_ap {A B : Type} (fs : list (A -> B)) (xs : list A)
    (i : nat) (f : A -> B) (x : A) :
  fs !! i = Some f -> xs !! i = Some x -> (fs <*> xs) !! i = Some (f x).
Proof.
  intros Hf Hx. apply lookup_zip_with_Some. exists f, x. done.
Qed.

Lemma lookup_np_where (cond : list bool) (x y : Series) (i : nat)
    (c : bool) (a b : pyfloat) :
  cond !! i = Some c -> x !! i = Some a -> y !! i = Some b ->
  np_where cond x y !! i = Some (if c then a else b).
Proof.
  intros Hc Hx Hy. apply lookup_zip_with_Some. exists c, (a, b).
  split_and!; [done | done |]. by apply lookup_zip_Some.
Qed.

End FloatFacts.

(** ** The loss cascade *)

Section LossCascade.
Import SystemLosses.

Lemma series_mul_scalar_feq (s : Series) (c c' : Q) :
  c == c' ->
  Forall2 feq (series_mul_scalar s c) (series_mul_scalar s c').
Proof.
  intros E. unfold series_mul_scalar. apply Forall2_fmap, Forall_Forall2_diag.
  apply Forall_forall. intros v _. apply fmul_proper; [reflexivity | exact E].
Qed.

Lemma series_mul_scalar_one (s : Series) :
  Forall2 feq (series_mul_scalar s 1) s.
Proof.
  unfold series_mul_scalar. apply Forall2_fmap_l, Forall_Forall2_diag.
  apply Forall_forall. intros [|x] _; simpl; [exact I | ring].
Qed.

Lemma series_mul_scalar_twice (s : Series) (c d : Q) :
  Forall2 feq (series_mul_scalar (series_mul_scalar s c) d)
              (series_mul_scalar s (c * d)).
Proof.
  unfold series_mul_scalar. rewrite <- list_fmap_compose.
  apply Forall2_fmap, Forall_Forall2_diag, Forall_forall.
  intros [|x] _; simpl; [exact I | ring].
Qed.

Lemma fold_apply_loss_step (L : LossParams) (s : Series) :
  Forall2 feq (fold_left apply_loss_step L s)
              (series_mul_scalar s (cascade_factor L)).
Proof.
  revert s. induction L as [|[k v] L IH]; intros s; simpl.
  - symmetry. apply series_mul_scalar_one.
  - etrans; [apply IH |].
    destruct (Qlt_bool 0 v).
    + apply series_mul_scalar_twice.
    + apply series_mul_scalar_feq. ring.
Qed.

Lemma cascade_factor_retained (L : LossParams) :
  Forall (fun kv => 0 <= kv.2) L -> cascade_factor L == retained_product L.
Proof.
  induction 1 as [|[k v] L Hv _ IH]; simpl in *; [reflexivity |].
  rewrite IH. destruct (Qlt_bool 0 v) eqn:E; [reflexivity |].
  assert (~ 0 < v) as Hn by (rewrite <- Qlt_bool_iff; congruence).
  assert (v == 0) as -> by lra. ring.
Qed.

Lemma fold_retention (vs : list Q) (r : Q) :
  fold_left (fun retention_factor loss_value =>
               retention_factor * (1 - loss_value)) vs r
  == r * fold_right (fun v acc => (1 - v) * acc) 1 vs.
Proof.
  revert r. induction vs as [|v vs IH]; intros r; simpl; [ring |].
  rewrite IH. ring.
Qed.

Lemma total_loss_factor_retained (L : LossParams) :
  get_total_loss_factor {| loss_params := L |} == retained_product L.
Proof.
  unfold get_total_loss_factor. simpl. rewrite fold_retention.
  rewrite Qmult_1_l. induction L as [|[k v] L IH]; csimpl; [reflexivity |].
  rewrite IH. reflexivity.
Qed.

Lemma retained_product_perm (L L' : LossParams) :
  L ≡ₚ L' -> retained_product L == retained_product L'.
Proof.
  induction 1 as [|[k v] L L' _ IH|[k v] [k' v'] L|L1 L2 L3 _ IH1 _ IH2];
    simpl; [reflexivity | rewrite IH; reflexivity | ring |].
  rewrite IH1. exact IH2.
Qed.

Lemma cascade_factor_perm (L L' : LossParams) :
  L ≡ₚ L' -> cascade_factor L == cascade_factor L'.
Proof.
  induction 1 as [|[k v] L L' _ IH|[k v] [k' v'] L|L1 L2 L3 _ IH1 _ IH2];
    simpl; [reflexivity | rewrite IH; reflexivity | ring |].
  rewrite IH1. exact IH2.
Qed.

Lemma retained_product_app (L1 L2 : LossParams) :
  retained_product (L1 ++ L2) == retained_product L1 * retained_product L2.
Proof.
  induction L1 as [|[k v] L1 IH]; simpl; [ring | rewrite IH; ring].
Qed.

Lemma cascade_factor_app (L1 L2 : LossParams) :
  cascade_factor (L1 ++ L2) == cascade_factor L1 * cascade_factor L2.
Proof.
  induction L1 as [|[k v] L1 IH]; simpl; [ring | rewrite IH; ring].
Qed.

Lemma apply_all_losses_feq (L L' : LossParams) (s : Series) :
  cascade_factor L == cascade_factor L' ->
  Forall2 feq (apply_all_losses {| loss_params := L |} s)
              (apply_all_losses {| loss_params := L' |} s).
Proof.
  intros E. unfold apply_all_losses. simpl.
  etrans; [apply fold_apply_loss_step |].
  etrans; [apply series_mul_scalar_feq, E |].
  symmetry. apply fold_apply_loss_step.
Qed.

End LossCascade.

(** Skipping a zero-valued category on binary64 numbers. *)
Lemma float64_zero_loss_is_skipped (L1 L2 : list (string * PrimFloat.float))
    (k : string) (s : list PrimFloat.float) :
  Float64.apply_all_losses (L1 ++ (k, 0%float) :: L2) s
  = Float64.apply_all_losses (L1 ++ L2) s.
Proof.
  unfold Float64.apply_all_losses. rewrite !fold_left_app. reflexivity.
Qed.

(** The cascade on binary64 numbers multiplies every power value in turn. *)
Lemma float64_cascade_in_turn (L : list (string * PrimFloat.float))
    (s : list PrimFloat.float) :
  Float64.apply_all_losses L s = List.map (Float64.multiply_in_turn L) s.
Proof.
  unfold Float64.apply_all_losses, Float64.multiply_in_turn.
  revert s. induction L as [|[k v] L IH]; intros s; simpl.
  - by rewrite map_id.
  - rewrite IH. destruct (PrimFloat.ltb 0 v); [| reflexivity].
    rewrite map_map. reflexivity.
Qed.

(** C1, as the code has it. For a loss profile whose fractions all lie in
    [0,1) and power values p >= 0, the cascade [apply_all_losses] multiplies
    p in turn by 1 - L[i] for the categories with L[i] > 0, on binary64
    numbers with every product rounded. In exact arithmetic (the equalities
    [==] and [feq] compare exact rational values) this is
    p * prod_i (1 - L[i]), the retained fraction is what
    [get_total_loss_factor] returns, and neither depends on the order of the
    categories; on binary64 numbers these equalities hold up to rounding
    only. A category with value zero is skipped by the cascade: dropping it
    leaves the result the same, also on binary64 numbers. *)
Theorem loss_cascade_is_retained_product
    (L : SystemLosses.LossParams) (ps : list Q) :
  Forall (fun kv => 0 <= kv.2 /\ kv.2 < 1) L ->
  Forall (fun p => 0 <= p) ps ->
  let self := {| SystemLosses.loss_params := L |} in
  Forall2 feq (SystemLosses.apply_all_losses self (Num <$> ps))
              ((fun p => Num (p * retained_product L)) <$> ps)
  /\ SystemLosses.get_total_loss_factor self == retained_product L
  /\ (forall L' : SystemLosses.LossParams,
        L ≡ₚ L' ->
        let self' := {| SystemLosses.loss_params := L' |} in
        SystemLosses.get_total_loss_factor self'
          == SystemLosses.get_total_loss_factor self
        /\ Forall2 feq (SystemLosses.apply_all_losses self' (Num <$> ps))
                       (SystemLosses.apply_all_losses self (Num <$> ps)))
  /\ (forall (L1 L2 : SystemLosses.LossParams) (k : string) (z : Q)
             (dc_power : Series),
        L = L1 ++ (k, z) :: L2 -> z == 0 ->
        let self' := {| SystemLosses.loss_params := L1 ++ L2 |} in
        SystemLosses.get_total_loss_factor self'
          == SystemLosses.get_total_loss_factor self
        /\ SystemLosses.apply_all_losses self' dc_power
           = SystemLosses.apply_all_losses self dc_power)
  /\ (forall (L1 L2 : list (string * PrimFloat.float)) (k : string)
             (dc_power : list PrimFloat.float),
        Float64.apply_all_losses (L1 ++ L2) dc_power
        = Float64.apply_all_losses (L1 ++ (k, 0%float) :: L2)
            dc_power)
  /\ (forall (Lf : list (string * PrimFloat.float))
             (dc_power : list PrimFloat.float),
        Float64.apply_all_losses Lf dc_power
        = List.map (Float64.multiply_in_turn Lf) dc_power).
Proof.
  intros HL _ self.
  assert (Forall (fun kv : string * Q => 0 <= kv.2) L) as HL0.
  { eapply Forall_impl; [exact HL | intros kv [Hk _]; exact Hk]. }
  split_and!.
  - unfold SystemLosses.apply_all_losses. simpl.
    etrans; [apply fold_apply_loss_step |].
    unfold series_mul_scalar. rewrite <- list_fmap_compose.
    apply Forall2_fmap, Forall_Forall2_diag, Forall_forall.
    intros p _. simpl. rewrite (cascade_factor_retained L HL0). reflexivity.
  - apply total_loss_factor_retained.
  - intros L' HP self'. split.
    + unfold self', self. rewrite !total_loss_factor_retained.
      symmetry. apply retained_product_perm, HP.
    + apply apply_all_losses_feq. symmetry. apply cascade_factor_perm, HP.
  - intros L1 L2 k z dc_power -> Hz self'. split.
    + unfold self', self. rewrite !total_loss_factor_retained.
      rewrite !retained_product_app. simpl. rewrite Hz. ring.
    + unfold self', self, SystemLosses.apply_all_losses. simpl.
      rewrite !fold_left_app. simpl.
      destruct (Qlt_bool 0 z) eqn:E; [| reflexivity].
      apply Qlt_bool_iff in E. lra.
  - intros L1 L2 k dc_power. symmetry. apply float64_zero_loss_is_skipped.
  - apply float64_cascade_in_turn.
Qed.

Lemma loss_cascade_is_retained_product_witness :
  Forall2 feq
    (SystemLosses.apply_all_losses
       {| SystemLosses.loss_params := [("soiling", 0.02); ("age", 0.00)]%string |}
       (Num <$> [100; 0]))
    ((fun p => Num (p * retained_product [("soiling", 0.02); ("age", 0.00)]%string))
       <$> [100; 0])
  /\ SystemLosses.get_total_loss_factor
       {| SystemLosses.loss_params := [("soiling", 0.02); ("age", 0.00)]%string |}
     == 0.98.
Proof.
  destruct (loss_cascade_is_retained_product
              [("soiling", 0.02); ("age", 0.00)]%string [100; 0])
    as (H1 & H2 & _).
  - repeat constructor; simpl; lra.
  - repeat constructor; simpl; lra.
  - split; [exact H1 |]. rewrite H2. reflexivity.
Defined.

(** C1 as stated fails on the program's binary64 numbers. With the shipped
    loss profile (every fraction in [0,1)) and p = 3, the cascade gives
    2.7122466548608193 while p times the total loss factor is
    2.7122466548608197; and listing the same categories in another order
    changes the total loss factor from 0.9040822182869399 to
    0.9040822182869398. *)
Lemma loss_cascade_float64_counterexample :
  Float64.apply_all_losses Float64.LOSSES [3%float]
  = [2.7122466548608193%float]
  /\ PrimFloat.mul (3%float)
       (Float64.get_total_loss_factor Float64.LOSSES)
     = 2.7122466548608197%float
  /\ PrimFloat.eqb 2.7122466548608193%float 2.7122466548608197%float = false
  /\ Float64.LOSSES ≡ₚ Float64.LOSSES_reordered
  /\ Float64.get_total_loss_factor Float64.LOSSES = 0.9040822182869399%float
  /\ Float64.get_total_loss_factor Float64.LOSSES_reordered
     = 0.9040822182869398%float
  /\ PrimFloat.eqb 0.9040822182869399%float 0.9040822182869398%float = false.
Proof.
  split_and!; try (vm_compute; reflexivity).
  unfold Float64.LOSSES, Float64.LOSSES_reordered.
  do 5 apply perm_skip.
  etrans; [apply perm_swap |]. apply perm_skip. apply perm_swap.
Qed.

(** C8. Applying an individual loss by a name that is not a key of the loss
    profile raises the unknown-loss-type [ValueError] and produces no power
    value; for a name of the profile it returns power * (1 - loss_fraction). *)
Theorem apply_individual_loss_lookup
    (L : SystemLosses.LossParams) (power : Series) (loss_name : string) :
  let self := {| SystemLosses.loss_params := L |} in
  (loss_name ∉ L.*1 ->
     SystemLosses.apply_individual_loss self power loss_name
     = Raise (ValueError (SystemLosses.unknown_loss_message loss_name)))
  /\ (forall loss_fraction : Q,
        NoDup L.*1 -> (loss_name, loss_fraction) ∈ L ->
        SystemLosses.apply_individual_loss self power loss_name
        = Ok ((fun p => fmul p (Num (1 - loss_fraction))) <$> power)).
Proof.
  intros self. unfold SystemLosses.apply_individual_loss. simpl. split.
  - intros Hnot. induction L as [|[k v] L IH]; simpl; [reflexivity |].
    destruct (String.eqb_spec loss_name k) as [->|Hne].
    + exfalso. apply Hnot. csimpl. left.
    + apply IH. intros Hin. apply Hnot. csimpl. by right.
  - intros f Hnd Hin. induction L as [|[k v] L IH]; simpl.
    + by apply elem_of_nil in Hin.
    + csimpl in Hnd. apply NoDup_cons in Hnd as [Hk Hnd].
      apply elem_of_cons in Hin as [Heq|Hin].
      * injection Heq as <- <-. rewrite String.eqb_refl. reflexivity.
      * destruct (String.eqb_spec loss_name k) as [->|Hne].
        -- exfalso. apply Hk. apply list_elem_of_fmap. by exists (k, f).
        -- by apply IH.
Qed.

Lemma apply_individual_loss_lookup_witness :
  SystemLosses.apply_individual_loss
    {| SystemLosses.loss_params := LOSSES |} [Num 100; NaN] "hail"
  = Raise (ValueError (SystemLosses.unknown_loss_message "hail"))
  /\ SystemLosses.apply_individual_loss
       {| SystemLosses.loss_params := LOSSES |} [Num 100; NaN] "lid"
     = Ok [Num (100 * (1 - 0.015)); NaN].
Proof.
  split.
  - apply (apply_individual_loss_lookup LOSSES [Num 100; NaN] "hail").
    vm_compute. intros Hin. repeat (apply elem_of_cons in Hin as [Hin|Hin]; [discriminate |]).
    by apply elem_of_nil in Hin.
  - apply (proj2 (apply_individual_loss_lookup LOSSES [Num 100; NaN] "lid")
                 0.015).
    + vm_compute. repeat (apply NoDup_cons; split;
        [intros Hin; repeat (apply elem_of_cons in Hin as [Hin|Hin]; [discriminate |]);
         by apply elem_of_nil in Hin |]).
      apply NoDup_nil. exact I.
    + unfold LOSSES. repeat (first [by left | right]).
Defined.

(** ** Cell temperature *)

Section CellTemperature.
Context {pvlib : Pvlib}.
Import TemperatureModel.

(** The post-processing of [calculate_cell_temperature]: night rule, floor
    at the ambient temperature, clamp to the operating range. *)
Lemma calculate_cell_temperature_post (self : t)
    (poa_global temp_air wind_speed cell_temp : Series) :
  calculate_cell_temperature self poa_global temp_air wind_speed
    = Ok cell_temp ->
  exists raw : Series,
    cell_temp
    = clip (Some (-40)) (Some 85)
        (np_maximum (np_where (series_le_scalar poa_global 0) temp_air raw)
                    temp_air)
    /\ forall (i : nat) (p a w : pyfloat),
         poa_global !! i = Some p -> temp_air !! i = Some a ->
         wind_speed !! i = Some w -> is_Some (raw !! i).
Proof.
  unfold calculate_cell_temperature.
  destruct (String.eqb (model self) "faiman").
  - destruct (getitem (params self) "u0") as [u0|]; simpl; [| discriminate].
    destruct (getitem (params self) "u1") as [u1|]; simpl; [| discriminate].
    intros [= <-]. eexists. split; [reflexivity |].
    intros i p a w Hp Ha Hw. eexists.
    eapply lookup_zip_ap; [| exact Hw].
    eapply lookup_zip_ap; [| exact Ha].
    rewrite list_lookup_fmap, Hp. reflexivity.
  - destruct (String.eqb (model self) "pvsyst").
    + destruct (getitem (params self) "u_c") as [u_c|]; simpl;
        [| discriminate].
      destruct (getitem (params self) "u_v") as [u_v|]; simpl;
        [| discriminate].
      intros [= <-]. eexists. split; [reflexivity |].
      intros i p a w Hp Ha Hw. eexists.
      eapply lookup_zip_ap; [| exact Hw].
      eapply lookup_zip_ap; [| exact Ha].
      rewrite list_lookup_fmap, Hp. reflexivity.
    + simpl. intros [= <-]. eexists. split; [reflexivity |].
      intros i p a w Hp Ha Hw. eexists.
      apply lookup_zip_with_Some. eexists _, _.
      split_and!; [reflexivity | exact Ha |].
      unfold series_mul_scalar. rewrite list_lookup_fmap, Hp. reflexivity.
Qed.

Lemma calculate_cell_temperature_length (self : t)
    (poa_global temp_air wind_speed cell_temp : Series) :
  calculate_cell_temperature self poa_global temp_air wind_speed
    = Ok cell_temp ->
  length temp_air = length poa_global ->
  length wind_speed = length poa_global ->
  length cell_temp = length poa_global.
Proof.
  unfold calculate_cell_temperature. intros Hcall Ht Hw.
  assert (forall raw : Series,
            length raw = length poa_global ->
            length (clip (Some (-40)) (Some 85)
                      (np_maximum
                         (np_where (series_le_scalar poa_global 0)
                                   temp_air raw) temp_air))
            = length poa_global) as Hpost.
  { intros raw Hr.
    unfold clip, np_maximum, np_where, series_le_scalar.
    repeat rewrite ?length_fmap, ?length_zip_with, ?length_zip. lia. }
  destruct (String.eqb (model self) "faiman").
  - destruct (getitem (params self) "u0") as [u0|]; simpl in Hcall;
      [| discriminate].
    destruct (getitem (params self) "u1") as [u1|]; simpl in Hcall;
      [| discriminate].
    injection Hcall as <-. apply Hpost. unfold zip_ap.
    repeat rewrite ?length_fmap, ?length_zip_with. lia.
  - destruct (String.eqb (model self) "pvsyst").
    + destruct (getitem (params self) "u_c") as [u_c|]; simpl in Hcall;
        [| discriminate].
      destruct (getitem (params self) "u_v") as [u_v|]; simpl in Hcall;
        [| discriminate].
      injection Hcall as <-. apply Hpost. unfold zip_ap.
      repeat rewrite ?length_fmap, ?length_zip_with. lia.
    + simpl in Hcall. injection Hcall as <-. apply Hpost.
      unfold series_mul_scalar.
      repeat rewrite ?length_fmap, ?length_zip_with. lia.
Qed.

(** A model built by the constructor always computes a temperature
    series. *)
Lemma calculate_cell_temperature_total (mounting model : string)
    (poa_global temp_air wind_speed : Series) :
  exists (self : t) (cell_temp : Series),
    __init__ mounting model = Ok self
    /\ calculate_cell_temperature self poa_global temp_air wind_speed
       = Ok cell_temp.
Proof.
  exists {| mounting_type := mounting; model := model;
            params := _get_temperature_model_params mounting model |}.
  unfold __init__, calculate_cell_temperature,
    _get_temperature_model_params. simpl.
  destruct (String.eqb model "faiman").
  - destruct (String.eqb mounting "roof_mounted");
      [| destruct (String.eqb mounting "open_rack")];
      simpl; eexists; split; reflexivity.
  - destruct (String.eqb model "pvsyst").
    + destruct (String.eqb mounting "roof_mounted");
        simpl; eexists; split; reflexivity.
    + simpl; eexists; split; reflexivity.
Qed.

Lemma fmaximum_diag (a : pyfloat) : fmaximum a a = a.
Proof. destruct a as [|x]; simpl; [reflexivity |]. by destruct (Qle_bool x x). Qed.

Lemma night_cell_temperature (self : t)
    (poa_global temp_air wind_speed cell_temp : Series)
    (i : nat) (p : Q) (a w : pyfloat) :
  calculate_cell_temperature self poa_global temp_air wind_speed
    = Ok cell_temp ->
  poa_global !! i = Some (Num p) -> p <= 0 ->
  temp_air !! i = Some a -> wind_speed !! i = Some w ->
  cell_temp !! i = Some (clip_value (Some (-40)) (Some 85) a).
Proof.
  intros Hcall Hp Hle Ha Hw.
  destruct (calculate_cell_temperature_post _ _ _ _ _ Hcall)
    as (raw & -> & Hraw).
  destruct (Hraw i _ _ _ Hp Ha Hw) as [r Hr].
  unfold clip, np_maximum. rewrite list_lookup_fmap.
  erewrite (proj2 (lookup_zip_with_Some _ _ _ _ _)); [reflexivity |].
  exists a, a. split_and!; [by rewrite fmaximum_diag | | exact Ha].
  erewrite lookup_np_where; [| | exact Ha | exact Hr].
  2:{ unfold series_le_scalar. rewrite list_lookup_fmap, Hp. reflexivity. }
  simpl. apply Qle_bool_iff in Hle. rewrite Hle. reflexivity.
Qed.

End CellTemperature.

(** C2, as the code has it. At every timestep with poa_global <= 0 the cell
    temperature returned by [calculate_cell_temperature] is the ambient
    temperature clamped to [-40, 85]; it equals the ambient temperature
    exactly when that lies within [-40, 85]. *)
Theorem night_cell_temperature_is_clamped_ambient {pvlib : Pvlib}
    (mounting model : string) (poa_global temp_air wind_speed : Series) :
  exists (self : TemperatureModel.t) (cell_temp : Series),
    TemperatureModel.__init__ mounting model = Ok self
    /\ TemperatureModel.calculate_cell_temperature
         self poa_global temp_air wind_speed = Ok cell_temp
    /\ forall (i : nat) (p : Q) (a w : pyfloat),
         poa_global !! i = Some (Num p) -> p <= 0 ->
         temp_air !! i = Some a -> wind_speed !! i = Some w ->
         cell_temp !! i = Some (clip_value (Some (-40)) (Some 85) a)
         /\ forall x : Q, a = Num x -> -40 <= x <= 85 ->
                          cell_temp !! i = Some (Num x).
Proof.
  destruct (calculate_cell_temperature_total mounting model
              poa_global temp_air wind_speed) as (self & cell & Hi & Hc).
  exists self, cell. split_and!; [exact Hi | exact Hc |].
  intros i p a w Hp Hle Ha Hw.
  pose proof (night_cell_temperature _ _ _ _ _ _ _ _ _ Hc Hp Hle Ha Hw) as E.
  split; [exact E |]. intros x -> Hx. rewrite E.
  destruct (clip_value_Num (-40) 85 x) as (y & -> & _ & Hy & _); [lra |].
  by rewrite (Hy Hx).
Qed.

Lemma night_cell_temperature_is_clamped_ambient_witness :
  exists cell_temp : Series,
    (self <- TemperatureModel.__init__ "roof_mounted" "faiman" ;;
     TemperatureModel.calculate_cell_temperature (pvlib := sample_pvlib) self
       [Num 0; Num 0] [Num 12; Num 100] [Num 3; Num 3]) = Ok cell_temp
    /\ cell_temp !! 0%nat = Some (Num 12)
    /\ cell_temp !! 1%nat = Some (clip_value (Some (-40)) (Some 85) (Num 100)).
Proof.
  destruct (night_cell_temperature_is_clamped_ambient (pvlib := sample_pvlib)
              "roof_mounted" "faiman"
              [Num 0; Num 0] [Num 12; Num 100] [Num 3; Num 3])
    as (self & cell & Hi & Hc & Hnight).
  exists cell. split_and!.
  - rewrite Hi. exact Hc.
  - apply (proj2 (Hnight 0%nat 0 (Num 12) (Num 3) eq_refl ltac:(lra)
                   eq_refl eq_refl) 12 eq_refl). lra.
  - apply (proj1 (Hnight 1%nat 0 (Num 100) (Num 3) eq_refl ltac:(lra)
                   eq_refl eq_refl)).
Defined.

(** C2 as stated fails: in a night hour with an ambient temperature of -45
    degrees the returned cell temperature is -40, not the ambient
    temperature. *)
Lemma night_cell_temperature_counterexample :
  fle (Num 0) (Num 0) = true
  /\ (self <- TemperatureModel.__init__ "roof_mounted" "faiman" ;;
      TemperatureModel.calculate_cell_temperature (pvlib := sample_pvlib) self
        [Num 0] [Num (-45)] [Num 1]) = Ok [Num (-40)]
  /\ Num (-40) <> Num (-45).
Proof. split_and!; [reflexivity | reflexivity | discriminate]. Qed.

(** ** Incidence-angle modifier and effective irradiance *)

Section Irradiance.
Context {pvlib : Pvlib}.
Import IrradianceModel.

Lemma fillna_value_Num (c : Q) (v : pyfloat) :
  exists x : Q, fillna_value c v = Num x /\ (v = NaN -> x = c)
                /\ (forall y, v = Num y -> x = y).
Proof.
  destruct v as [|y]; simpl; eexists; split_and!; try reflexivity;
    intros; congruence.
Qed.

(** Every element of the modifier series is a number of [0,1]. *)
Lemma _calculate_iam_bounds (self : t) (aoi : Series) (i : nat)
    (m : pyfloat) :
  _calculate_iam self aoi !! i = Some m ->
  exists x : Q, m = Num x /\ 0 <= x <= 1.
Proof.
  unfold _calculate_iam, clip, fillna. rewrite <- !list_fmap_compose.
  intros (a & -> & _)%list_lookup_fmap_Some. simpl.
  destruct (fillna_value_Num 0 (iam_physical a 1.526 4.0 0.002))
    as (x & -> & _).
  destruct (clip_value_Num 0 1 x) as (y & -> & Hy & _); [lra |].
  by exists y.
Qed.

Lemma _calculate_iam_length (self : t) (aoi : Series) :
  length (_calculate_iam self aoi) = length aoi.
Proof. unfold _calculate_iam, clip, fillna. by rewrite !length_fmap. Qed.

Lemma calculate_poa_lengths (self : t) (weather_df : WeatherDF) :
  let df := calculate_poa self weather_df in
  length (index df) = length weather_df
  /\ length (col_temp_air df) = length weather_df
  /\ length (col_wind_speed df) = length weather_df
  /\ length (poa_global df) = length weather_df
  /\ length (iam df) = length weather_df
  /\ length (poa_effective df) = length weather_df.
Proof.
  cbv beta iota zeta
    delta [calculate_poa index col_temp_air col_wind_speed poa_global iam
           poa_effective].
  unfold clip, series_mul.
  unfold _calculate_aoi, _calculate_poa_components, _get_solar_position,
    zip_ap.
  repeat rewrite ?length_fmap, ?length_zip_with, ?_calculate_iam_length.
  lia.
Qed.

Lemma poa_effective_lookup (self : t) (weather_df : WeatherDF) (i : nat)
    (g m : pyfloat) :
  let df := calculate_poa self weather_df in
  poa_global df !! i = Some g -> iam df !! i = Some m ->
  poa_effective df !! i = Some (clip_value (Some 0) None (fmul g m)).
Proof.
  cbv beta iota zeta delta [calculate_poa poa_global iam poa_effective].
  intros Hg Hm. unfold clip, series_mul.
  rewrite list_lookup_fmap.
  erewrite (proj2 (lookup_zip_with_Some _ _ _ _ _)); [reflexivity |].
  by exists g, m.
Qed.

End Irradiance.

(** C5. At every timestep the incidence-angle modifier is a number of [0,1];
    the effective irradiance is poa_global * iam clipped at 0, hence
    non-negative, and it does not exceed poa_global when that is
    non-negative (as the transposition model delivers it). *)
Theorem iam_and_effective_poa_bounds {pvlib : Pvlib}
    (self : IrradianceModel.t) (weather_df : WeatherDF) (i : nat) :
  (i < length weather_df)%nat ->
  let df := IrradianceModel.calculate_poa self weather_df in
  exists m : Q,
    IrradianceModel.iam df !! i = Some (Num m)
    /\ 0 <= m <= 1
    /\ forall g : Q,
         IrradianceModel.poa_global df !! i = Some (Num g) ->
         exists e : Q,
           IrradianceModel.poa_effective df !! i = Some (Num e)
           /\ e == Qmax 0 (g * m)
           /\ 0 <= e
           /\ (0 <= g -> e <= g).
Proof.
  intros Hi df.
  destruct (calculate_poa_lengths self weather_df)
    as (_ & _ & _ & Hlg & Hlm & _).
  destruct (lookup_lt_is_Some_2 (IrradianceModel.iam df) i) as [m Hm];
    [unfold df; lia |].
  destruct (_calculate_iam_bounds self _ i m Hm) as (x & -> & Hx).
  exists x. split_and!; [exact Hm | lra | lra |].
  intros g Hg.
  pose proof (poa_effective_lookup self weather_df i _ _ Hg Hm) as He.
  destruct (clip_value_lower_Num 0 (g * x)) as (e & Hclip & He0 & Hmax).
  exists e. split_and!.
  - unfold df. rewrite He. simpl fmul. by rewrite Hclip.
  - exact Hmax.
  - exact He0.
  - intros Hg0. rewrite Hmax. apply Q.max_lub; [exact Hg0 | nra].
Qed.

(** ** The simulator *)

Section Simulator.
Context {pvlib : Pvlib}.
Import PVSimulator.

(** Construction stores its arguments and builds the three sub-models. *)
Lemma init_unfold (loc : Location.t) (sys : System.t) (mod_ : PVModule.t)
    (inv : Inverter.t) (loss : SystemLosses.LossParams) :
  exists self : t,
    __init__ loc sys mod_ inv loss = Ok self
    /\ location self = loc /\ system self = sys /\ module self = mod_
    /\ inverter self = inv /\ loss_params self = loss
    /\ loss_model self = {| SystemLosses.loss_params := loss |}
    /\ TemperatureModel.__init__ (System.mounting_type sys) "faiman"
       = Ok (temperature_model self)
    /\ IrradianceModel.__init__
         (Location.latitude loc) (Location.longitude loc)
         (Location.altitude loc) (System.tilt sys) (System.azimuth sys)
         (System.albedo sys)
       = Ok (irradiance_model self).
Proof. eexists. split_and!; reflexivity. Qed.

Lemma run_stages_inv (self : t) (fetch_tmy_data : result WeatherDF)
    (frame : SimDF) :
  run_stages self fetch_tmy_data = Ok frame ->
  exists (weather_df : WeatherDF) (cell : Series),
    let df :=
      IrradianceModel.calculate_poa (irradiance_model self) weather_df in
    let dc :=
      _calculate_dc_power self (IrradianceModel.poa_effective df) cell in
    let dc_after_loss :=
      SystemLosses.apply_all_losses (loss_model self) dc in
    let ac := _calculate_ac_power self dc_after_loss in
    fetch_tmy_data = Ok weather_df
    /\ TemperatureModel.calculate_cell_temperature (temperature_model self)
         (IrradianceModel.poa_global df) (IrradianceModel.col_temp_air df)
         (IrradianceModel.col_wind_speed df) = Ok cell
    /\ frame = {| poa_df := df; cell_temp := cell; dc_power_kw := dc;
                  dc_power_after_loss_kw := dc_after_loss;
                  ac_power_kw := ac; energy_kwh := ac |}.
Proof.
  destruct fetch_tmy_data as [w|e]; [| discriminate].
  cbv beta iota zeta delta [run_stages bind].
  destruct (TemperatureModel.calculate_cell_temperature _ _ _ _)
    as [cell|e] eqn:E; [| discriminate].
  intros Heq. exists w, cell.
  split_and!; [reflexivity | exact E | congruence].
Qed.

(** A constructed simulator runs every stage on every weather frame. *)
Lemma run_stages_total (loc : Location.t) (sys : System.t)
    (mod_ : PVModule.t) (inv : Inverter.t)
    (loss : SystemLosses.LossParams) (weather_df : WeatherDF) :
  exists (self : t) (frame : SimDF),
    __init__ loc sys mod_ inv loss = Ok self
    /\ inverter self = inv
    /\ run_stages self (Ok weather_df) = Ok frame.
Proof.
  destruct (init_unfold loc sys mod_ inv loss)
    as (self & Hi & _ & _ & _ & Hinv & _ & _ & Ht & _).
  exists self.
  destruct (calculate_cell_temperature_total
              (System.mounting_type sys) "faiman"
              (IrradianceModel.poa_global
                 (IrradianceModel.calculate_poa (irradiance_model self)
                    weather_df))
              (IrradianceModel.col_temp_air
                 (IrradianceModel.calculate_poa (irradiance_model self)
                    weather_df))
              (IrradianceModel.col_wind_speed
                 (IrradianceModel.calculate_poa (irradiance_model self)
                    weather_df)))
    as (tm & cell & Htm & Hcell).
  rewrite Ht in Htm. injection Htm as <-.
  eexists. split_and!; [exact Hi | exact Hinv |].
  cbv beta iota zeta delta [run_stages bind]. rewrite Hcell. reflexivity.
Qed.

Lemma _calculate_dc_power_lookup (self : t) (poa_effective cell : Series)
    (i : nat) (e c : pyfloat) :
  poa_effective !! i = Some e -> cell !! i = Some c ->
  _calculate_dc_power self poa_effective cell !! i
  = Some (clip_value (Some 0) None
            (pvwatts_dc e c (System.capacity_kw (system self))
               (PVModule.gamma_pmp (module self))
               (PVModule.T_ref (module self)))).
Proof.
  intros He Hc. unfold _calculate_dc_power, clip.
  rewrite list_lookup_fmap.
  rewrite (lookup_zip_ap _ _ i
             (fun temp_cell =>
                pvwatts_dc e temp_cell (System.capacity_kw (system self))
                  (PVModule.gamma_pmp (module self))
                  (PVModule.T_ref (module self))) c);
    [reflexivity | | exact Hc].
  rewrite list_lookup_fmap, He. reflexivity.
Qed.

Lemma _calculate_dc_power_nonneg (self : t) (poa_effective cell : Series)
    (i : nat) (d : Q) :
  _calculate_dc_power self poa_effective cell !! i = Some (Num d) ->
  0 <= d.
Proof.
  unfold _calculate_dc_power, clip.
  intros (v & Hd & _)%list_lookup_fmap_Some.
  destruct v as [|x]; [by rewrite clip_value_NaN in Hd |].
  destruct (clip_value_lower_Num 0 x) as (y & Hy & Hy0 & _).
  rewrite Hy in Hd. injection Hd as ->. exact Hy0.
Qed.

Lemma _calculate_ac_power_lookup (self : t) (dc_power : Series) (i : nat) :
  _calculate_ac_power self dc_power !! i
  = (fun pdc =>
       clip_value (Some 0) (Some (Inverter.pac0 (inverter self)))
         (inverter_pvwatts pdc (Inverter.pdc0 (inverter self))
            (Inverter.eta_inv_nom (inverter self))
            (default 0.9637 (Inverter.eta_inv_ref (inverter self)))))
    <$> dc_power !! i.
Proof.
  unfold _calculate_ac_power, clip. by rewrite !list_lookup_fmap,
    <- option_fmap_compose.
Qed.

Lemma _calculate_ac_power_bounds (self : t) (dc_power : Series) (i : nat)
    (a : Q) :
  0 <= Inverter.pac0 (inverter self) ->
  _calculate_ac_power self dc_power !! i = Some (Num a) ->
  0 <= a <= Inverter.pac0 (inverter self).
Proof.
  intros Hpac. rewrite _calculate_ac_power_lookup.
  intros (pdc & _ & Ha)%fmap_Some.
  destruct (inverter_pvwatts _ _ _ _) as [|x];
    [by rewrite clip_value_NaN in Ha |].
  destruct (clip_value_Num 0 (Inverter.pac0 (inverter self)) x Hpac)
    as (y & Hy & Hb & _).
  rewrite Hy in Ha. injection Ha as ->. exact Hb.
Qed.

Lemma apply_all_losses_length (losses : SystemLosses.t) (s : Series) :
  length (SystemLosses.apply_all_losses losses s) = length s.
Proof.
  unfold SystemLosses.apply_all_losses.
  generalize (SystemLosses.loss_params losses). intros L. revert s.
  induction L as [|[k v] L IH]; intros s; simpl; [reflexivity |].
  rewrite IH. destruct (Qlt_bool 0 v); [| reflexivity].
  unfold series_mul_scalar. by rewrite length_fmap.
Qed.

Lemma _calculate_ac_power_length (self : t) (dc_power : Series) :
  length (_calculate_ac_power self dc_power) = length dc_power.
Proof. unfold _calculate_ac_power, clip. by rewrite !length_fmap. Qed.

End Simulator.

Section Run.
Context {pvlib : Pvlib}.
Import PVSimulator.

Lemma _calculate_dc_power_length (self : t) (poa_effective cell : Series) :
  length cell = length poa_effective ->
  length (_calculate_dc_power self poa_effective cell)
  = length poa_effective.
Proof.
  intros Hl. unfold _calculate_dc_power, clip, zip_ap.
  repeat rewrite ?length_fmap, ?length_zip_with. lia.
Qed.

(** One run of a constructed simulator: every stage succeeds and every
    column has one entry per weather sample. *)
Lemma run_facts (loc : Location.t) (sys : System.t) (mod_ : PVModule.t)
    (inv : Inverter.t) (loss : SystemLosses.LossParams)
    (weather_df : WeatherDF) :
  exists (self : t) (frame : SimDF),
    __init__ loc sys mod_ inv loss = Ok self
    /\ inverter self = inv
    /\ run_stages self (Ok weather_df) = Ok frame
    /\ run_simulation self (Ok weather_df) = Ok (_format_results frame)
    /\ IrradianceModel.index (poa_df frame) = datetime <$> weather_df
    /\ dc_power_kw frame
       = _calculate_dc_power self
           (IrradianceModel.poa_effective (poa_df frame)) (cell_temp frame)
    /\ dc_power_after_loss_kw frame
       = SystemLosses.apply_all_losses (loss_model self) (dc_power_kw frame)
    /\ ac_power_kw frame
       = _calculate_ac_power self (dc_power_after_loss_kw frame)
    /\ energy_kwh frame = ac_power_kw frame
    /\ length (dc_power_kw frame) = length weather_df
    /\ length (dc_power_after_loss_kw frame) = length weather_df
    /\ length (ac_power_kw frame) = length weather_df.
Proof.
  destruct (run_stages_total loc sys mod_ inv loss weather_df)
    as (self & frame & Hi & Hinv & Hrun).
  exists self, frame.
  destruct (run_stages_inv _ _ _ Hrun) as (w & cell & Hw & Hcell & ->).
  injection Hw as <-.
  destruct (calculate_poa_lengths (irradiance_model self) weather_df)
    as (_ & Hlt & Hlw & Hlg & _ & Hle).
  pose proof (calculate_cell_temperature_length _ _ _ _ _ Hcell) as Hlc.
  assert (length (_calculate_dc_power self
                    (IrradianceModel.poa_effective
                       (IrradianceModel.calculate_poa
                          (irradiance_model self) weather_df)) cell)
          = length weather_df) as Hdc.
  { rewrite _calculate_dc_power_length; [exact Hle |].
    rewrite Hlc; lia. }
  split_and!; try reflexivity; try assumption.
  - unfold run_simulation. rewrite Hrun. reflexivity.
  - cbn [dc_power_after_loss_kw]. by rewrite apply_all_losses_length.
  - cbn [ac_power_kw].
    by rewrite _calculate_ac_power_length, apply_all_losses_length.
Qed.

End Run.

(** C3. At every timestep the DC power of [_calculate_dc_power] is
    max(0, pdc0 * (effective_poa / 1000) * (1 + gamma_pmp * (cell_temp - T_ref)))
    with pdc0 the plant capacity, gamma_pmp and T_ref taken from the module;
    no value of the series is negative. *)
Theorem dc_power_is_clipped_pvwatts
    (self : PVSimulator.t) (poa_effective cell_temp : Series) (i : nat) :
  let pdc0 := System.capacity_kw (PVSimulator.system self) in
  let gamma_pmp := PVModule.gamma_pmp (PVSimulator.module self) in
  let T_ref := PVModule.T_ref (PVSimulator.module self) in
  let dc_power :=
    PVSimulator._calculate_dc_power self poa_effective cell_temp in
  (forall e c : Q,
     poa_effective !! i = Some (Num e) -> cell_temp !! i = Some (Num c) ->
     exists d : Q,
       dc_power !! i = Some (Num d)
       /\ d == Qmax 0 (pdc0 * (e / 1000) * (1 + gamma_pmp * (c - T_ref)))
       /\ 0 <= d)
  /\ (forall d : Q, dc_power !! i = Some (Num d) -> 0 <= d).
Proof.
  intros pdc0 gamma_pmp T_ref dc_power. split.
  - intros e c He Hc.
    pose proof (_calculate_dc_power_lookup self _ _ i _ _ He Hc) as Hd.
    fold dc_power pdc0 gamma_pmp T_ref in Hd.
    destruct (clip_value_lower_Num 0
                (pdc0 * (e / 1000) * (1 + gamma_pmp * (c - T_ref))))
      as (d & Hclip & Hd0 & Hmax).
    exists d. split_and!; [| exact Hmax | exact Hd0].
    rewrite Hd. rewrite <- Hclip. reflexivity.
  - intros d. apply _calculate_dc_power_nonneg.
Qed.

Lemma dc_power_is_clipped_pvwatts_witness :
  exists (self : PVSimulator.t) (d : Q),
    PVSimulator.__init__ LOCATION SYSTEM MODULE INVERTER LOSSES = Ok self
    /\ PVSimulator._calculate_dc_power self [Num 800] [Num 45] !! 0%nat
       = Some (Num d)
    /\ d == 744.
Proof.
  destruct (init_unfold LOCATION SYSTEM MODULE INVERTER LOSSES)
    as (self & Hi & _ & Hsys & Hmod & _).
  destruct (proj1 (dc_power_is_clipped_pvwatts self [Num 800] [Num 45] 0%nat)
              800 45 eq_refl eq_refl) as (d & Hd & Hmax & _).
  exists self, d. split_and!; [exact Hi | exact Hd |].
  rewrite Hmax, Hsys, Hmod. reflexivity.
Defined.



Lemma iam_and_effective_poa_bounds_witness :
  exists m e : Q,
    let df :=
      IrradianceModel.calculate_poa (pvlib := sample_pvlib)
        {| IrradianceModel.latitude := 31.30;
           IrradianceModel.longitude := 120.62;
           IrradianceModel.altitude := 5;
           IrradianceModel.tilt := 3;
           IrradianceModel.azimuth := 180;
           IrradianceModel.albedo := 0.2 |} sample_weather in
    IrradianceModel.iam df !! 1%nat = Some (Num m)
    /\ IrradianceModel.poa_effective df !! 1%nat = Some (Num e)
    /\ 0 <= m <= 1 /\ 0 <= e <= 400.
Proof.
  destruct (iam_and_effective_poa_bounds (pvlib := sample_pvlib)
              {| IrradianceModel.latitude := 31.30;
                 IrradianceModel.longitude := 120.62;
                 IrradianceModel.altitude := 5;
                 IrradianceModel.tilt := 3;
                 IrradianceModel.azimuth := 180;
                 IrradianceModel.albedo := 0.2 |} sample_weather 1%nat)
    as (m & Hm & Hm01 & Hpoa); [simpl; lia |].
  destruct (Hpoa (600 * 0.5 + 100) eq_refl) as (e & He & _ & He0 & Hle).
  exists m, e. split_and!; try assumption; lra.
Defined.

(** C6. For every weather frame, the run of a simulator with rated AC output
    pac0 >= 0 returns a result frame with one (timestamp, energy_kwh) row
    per weather sample, in the order of the input, and every energy value is
    a number >= 0. *)
Theorem result_is_aligned_and_nonnegative {pvlib : Pvlib}
    (loc : Location.t) (sys : System.t) (mod_ : PVModule.t)
    (inv : Inverter.t) (loss : SystemLosses.LossParams)
    (weather_df : WeatherDF) :
  0 <= Inverter.pac0 inv ->
  exists (self : PVSimulator.t) (results_df : PVSimulator.ResultsDF),
    PVSimulator.__init__ loc sys mod_ inv loss = Ok self
    /\ PVSimulator.run_simulation self (Ok weather_df) = Ok results_df
    /\ PVSimulator.res_datetime results_df = datetime <$> weather_df
    /\ length (PVSimulator.res_energy_kwh results_df) = length weather_df
    /\ length (PVSimulator.rows results_df) = length weather_df
    /\ (PVSimulator.rows results_df).*1 = datetime <$> weather_df
    /\ forall (i : nat) (ts : Timestamp) (energy : pyfloat),
         PVSimulator.rows results_df !! i = Some (ts, energy) ->
         exists x : Q, energy = Num x /\ 0 <= x.
Proof.
  intros Hpac.
  destruct (run_facts loc sys mod_ inv loss weather_df)
    as (self & frame & Hi & Hinv & _ & Hsim & Hidx & _ & _ & Hac & Hen
        & _ & _ & Hlac).
  exists self, (PVSimulator._format_results frame).
  assert (length (PVSimulator.res_energy_kwh
                    (PVSimulator._format_results frame))
          = length weather_df) as Hlen.
  { unfold PVSimulator._format_results, fillna.
    cbn [PVSimulator.res_energy_kwh]. by rewrite length_fmap, Hen. }
  assert (PVSimulator.res_datetime (PVSimulator._format_results frame)
          = datetime <$> weather_df) as Hdt by exact Hidx.
  split_and!; try assumption.
  - unfold PVSimulator.rows. rewrite length_zip, Hdt, Hlen, length_fmap. lia.
  - unfold PVSimulator.rows. rewrite fst_zip; [exact Hdt |].
    rewrite Hdt, Hlen, length_fmap. lia.
  - intros i ts energy [_ He]%lookup_zip_Some.
    unfold PVSimulator._format_results, fillna in He.
    cbn [PVSimulator.res_energy_kwh] in He.
    apply list_lookup_fmap_Some in He as (a & -> & Ha).
    rewrite Hen in Ha.
    destruct a as [|x]; simpl; [exists 0; split; [reflexivity | lra] |].
    exists x. split; [reflexivity |].
    rewrite Hac, <- Hinv in *.
    by apply (_calculate_ac_power_bounds _ _ _ _ Hpac Ha).
Qed.

Lemma result_is_aligned_and_nonnegative_witness :
  exists (self : PVSimulator.t) (results_df : PVSimulator.ResultsDF),
    PVSimulator.__init__ LOCATION SYSTEM MODULE INVERTER LOSSES = Ok self
    /\ PVSimulator.run_simulation (pvlib := sample_pvlib) self (Ok sample_weather)
       = Ok results_df
    /\ (PVSimulator.rows results_df).*1 = [0; 3600; 7200]%Z
    /\ exists x : Q,
         PVSimulator.res_energy_kwh results_df !! 2%nat = Some (Num x)
         /\ x == 980.
Proof.
  destruct (result_is_aligned_and_nonnegative (pvlib := sample_pvlib)
              LOCATION SYSTEM MODULE INVERTER LOSSES sample_weather)
    as (self & res & Hi & Hrun & _ & _ & _ & Hrows & _); [simpl; lra |].
  exists self, res. split_and!; [exact Hi | exact Hrun | exact Hrows |].
  injection Hi as <-. injection Hrun as <-.
  exists 980.00. split; [vm_compute; reflexivity | reflexivity].
Defined.

(** C10. At every timestep the energy of the result equals the AC power when
    that is a number, and is 0 when the AC power is NaN. *)
Theorem energy_is_ac_power_or_zero {pvlib : Pvlib}
    (loc : Location.t) (sys : System.t) (mod_ : PVModule.t)
    (inv : Inverter.t) (loss : SystemLosses.LossParams)
    (weather_df : WeatherDF) :
  exists (self : PVSimulator.t) (frame : PVSimulator.SimDF)
         (results_df : PVSimulator.ResultsDF),
    PVSimulator.__init__ loc sys mod_ inv loss = Ok self
    /\ PVSimulator.run_stages self (Ok weather_df) = Ok frame
    /\ PVSimulator.run_simulation self (Ok weather_df) = Ok results_df
    /\ length (PVSimulator.ac_power_kw frame) = length weather_df
    /\ length (PVSimulator.res_energy_kwh results_df) = length weather_df
    /\ forall i : nat,
         (forall x : Q,
            PVSimulator.ac_power_kw frame !! i = Some (Num x) ->
            PVSimulator.res_energy_kwh results_df !! i = Some (Num x))
         /\ (PVSimulator.ac_power_kw frame !! i = Some NaN ->
             PVSimulator.res_energy_kwh results_df !! i = Some (Num 0)).
Proof.
  destruct (run_facts loc sys mod_ inv loss weather_df)
    as (self & frame & Hi & _ & Hrun & Hsim & _ & _ & _ & _ & Hen
        & _ & _ & Hlac).
  exists self, frame, (PVSimulator._format_results frame).
  split_and!; try assumption.
  - unfold PVSimulator._format_results, fillna.
    cbn [PVSimulator.res_energy_kwh]. by rewrite length_fmap, Hen.
  - intros i. unfold PVSimulator._format_results, fillna.
    cbn [PVSimulator.res_energy_kwh]. rewrite Hen, list_lookup_fmap.
    split; [intros x Hx | intros Hx]; rewrite Hx; reflexivity.
Qed.

(** ** The inverter entries the run never reads *)

Section InverterFrame.
Context {pvlib : Pvlib}.
Import PVSimulator.

Lemma _calculate_ac_power_frame (self1 self2 : t) (dc_power : Series) :
  same_except_dc_bounds (inverter self1) (inverter self2) ->
  _calculate_ac_power self1 dc_power = _calculate_ac_power self2 dc_power.
Proof.
  intros (_ & _ & Hpdc0 & Hpac0 & Hnom & Href & _).
  unfold _calculate_ac_power. by rewrite Hpdc0, Hpac0, Hnom, Href.
Qed.

Lemma run_stages_frame (self1 self2 : t)
    (fetch_tmy_data : result WeatherDF) :
  irradiance_model self1 = irradiance_model self2 ->
  temperature_model self1 = temperature_model self2 ->
  system self1 = system self2 -> module self1 = module self2 ->
  loss_model self1 = loss_model self2 ->
  same_except_dc_bounds (inverter self1) (inverter self2) ->
  run_stages self1 fetch_tmy_data = run_stages self2 fetch_tmy_data.
Proof.
  intros Him Htm Hsys Hmod Hloss Hinv.
  destruct fetch_tmy_data as [w|e]; [| reflexivity].
  cbv beta iota zeta delta [run_stages bind]. rewrite Him, Htm, Hloss.
  destruct (TemperatureModel.calculate_cell_temperature _ _ _ _)
    as [cell|e]; [| reflexivity].
  assert (forall poa, _calculate_dc_power self1 poa cell
                      = _calculate_dc_power self2 poa cell) as Hdc.
  { intros poa. unfold _calculate_dc_power. by rewrite Hsys, Hmod. }
  rewrite !Hdc.
  by rewrite !(_calculate_ac_power_frame self1 self2 _ Hinv).
Qed.

End InverterFrame.

(** C9. Two configurations that differ only in the inverter entries pdc_min,
    pdc_max, vdc_min and vdc_max give, on the same weather, the same DC
    power, the same derated DC power, the same AC power and the same result;
    the AC power of an hour is the clipped inverter curve of the derated DC
    power of that hour, with no startup threshold. *)
Theorem run_ignores_inverter_dc_bounds {pvlib : Pvlib}
    (loc : Location.t) (sys : System.t) (mod_ : PVModule.t)
    (inv1 inv2 : Inverter.t) (loss : SystemLosses.LossParams) :
  same_except_dc_bounds inv1 inv2 ->
  exists self1 self2 : PVSimulator.t,
    PVSimulator.__init__ loc sys mod_ inv1 loss = Ok self1
    /\ PVSimulator.__init__ loc sys mod_ inv2 loss = Ok self2
    /\ (forall poa_effective cell_temp : Series,
          PVSimulator._calculate_dc_power self1 poa_effective cell_temp
          = PVSimulator._calculate_dc_power self2 poa_effective cell_temp)
    /\ (forall dc_power : Series,
          SystemLosses.apply_all_losses (PVSimulator.loss_model self1) dc_power
          = SystemLosses.apply_all_losses (PVSimulator.loss_model self2)
              dc_power)
    /\ (forall dc_power : Series,
          PVSimulator._calculate_ac_power self1 dc_power
          = PVSimulator._calculate_ac_power self2 dc_power)
    /\ (forall fetch_tmy_data : result WeatherDF,
          PVSimulator.run_stages self1 fetch_tmy_data
          = PVSimulator.run_stages self2 fetch_tmy_data
          /\ PVSimulator.run_simulation self1 fetch_tmy_data
             = PVSimulator.run_simulation self2 fetch_tmy_data)
    /\ (forall (dc_power : Series) (i : nat) (pdc : pyfloat),
          dc_power !! i = Some pdc ->
          PVSimulator._calculate_ac_power self1 dc_power !! i
          = Some (clip_value (Some 0) (Some (Inverter.pac0 inv1))
                    (inverter_pvwatts pdc (Inverter.pdc0 inv1)
                       (Inverter.eta_inv_nom inv1)
                       (default 0.9637 (Inverter.eta_inv_ref inv1))))).
Proof.
  intros Hsame.
  destruct (init_unfold loc sys mod_ inv1 loss)
    as (self1 & Hi1 & _ & Hs1 & Hm1 & Hinv1 & _ & Hl1 & Ht1 & Hir1).
  destruct (init_unfold loc sys mod_ inv2 loss)
    as (self2 & Hi2 & _ & Hs2 & Hm2 & Hinv2 & _ & Hl2 & Ht2 & Hir2).
  assert (same_except_dc_bounds (PVSimulator.inverter self1)
            (PVSimulator.inverter self2)) as Hsame' by by rewrite Hinv1, Hinv2.
  assert (forall fetch_tmy_data : result WeatherDF,
            PVSimulator.run_stages self1 fetch_tmy_data
            = PVSimulator.run_stages self2 fetch_tmy_data) as Hrun.
  { intros f. apply run_stages_frame; congruence. }
  exists self1, self2. split_and!; try assumption.
  - intros poa ct. unfold PVSimulator._calculate_dc_power.
    by rewrite Hs1, Hs2, Hm1, Hm2.
  - intros dc. by rewrite Hl1, Hl2.
  - intros dc. by apply _calculate_ac_power_frame.
  - intros f. split; [apply Hrun |].
    unfold PVSimulator.run_simulation. by rewrite Hrun.
  - intros dc i pdc Hp.
    by rewrite _calculate_ac_power_lookup, Hp, Hinv1.
Qed.

Lemma run_ignores_inverter_dc_bounds_witness :
  exists (self1 self2 : PVSimulator.t) (a : Q),
    PVSimulator.__init__ LOCATION SYSTEM MODULE INVERTER LOSSES = Ok self1
    /\ PVSimulator.__init__ LOCATION SYSTEM MODULE
         (with_dc_bounds INVERTER 0 5000 0 5000) LOSSES = Ok self2
    /\ PVSimulator.run_simulation (pvlib := sample_pvlib) self1 (Ok sample_weather)
       = PVSimulator.run_simulation (pvlib := sample_pvlib) self2 (Ok sample_weather)
    /\ PVSimulator._calculate_ac_power (pvlib := sample_pvlib) self1 [Num 10]
       = [Num a]
    /\ 10 < Inverter.pdc_min INVERTER /\ 0 < a.
Proof.
  destruct (run_ignores_inverter_dc_bounds (pvlib := sample_pvlib)
              LOCATION SYSTEM MODULE INVERTER
              (with_dc_bounds INVERTER 0 5000 0 5000) LOSSES)
    as (self1 & self2 & Hi1 & Hi2 & _ & _ & _ & Hrun & _).
  { repeat split. }
  eexists self1, self2, _.
  split_and!; [exact Hi1 | exact Hi2 | apply Hrun | | |].
  - injection Hi1 as <-. vm_compute. reflexivity.
  - vm_compute. reflexivity.
  - vm_compute. reflexivity.
Defined.

(** C7, as the code has it. Construction of the simulator validates
    nothing: for every configuration, inside or outside the ranges of the
    specification, it succeeds and stores the parameters as they are
    given. *)
Theorem construction_accepts_every_configuration
    (loc : Location.t) (sys : System.t) (mod_ : PVModule.t)
    (inv : Inverter.t) (loss : SystemLosses.LossParams) :
  exists self : PVSimulator.t,
    PVSimulator.__init__ loc sys mod_ inv loss = Ok self
    /\ PVSimulator.location self = loc
    /\ PVSimulator.system self = sys
    /\ PVSimulator.module self = mod_
    /\ PVSimulator.inverter self = inv
    /\ PVSimulator.loss_params self = loss
    /\ IrradianceModel.tilt (PVSimulator.irradiance_model self)
       = System.tilt sys
    /\ IrradianceModel.azimuth (PVSimulator.irradiance_model self)
       = System.azimuth sys
    /\ IrradianceModel.albedo (PVSimulator.irradiance_model self)
       = System.albedo sys.
Proof. eexists. split_and!; reflexivity. Qed.

(** C7 as stated fails: a system with tilt 120, azimuth 400 and albedo 1.5
    is outside every range, and the simulator is constructed all the same. *)
Lemma construction_counterexample :
  site_geometry_in_range OUT_OF_RANGE_SYSTEM = false
  /\ IrradianceModel.__init__ 31.30 120.62 5 120 400 1.5
     = Ok {| IrradianceModel.latitude := 31.30;
             IrradianceModel.longitude := 120.62;
             IrradianceModel.altitude := 5;
             IrradianceModel.tilt := 120;
             IrradianceModel.azimuth := 400;
             IrradianceModel.albedo := 1.5 |}
  /\ exists self : PVSimulator.t,
       PVSimulator.__init__ LOCATION OUT_OF_RANGE_SYSTEM MODULE INVERTER
         LOSSES = Ok self.
Proof. split_and!; [reflexivity | reflexivity | eexists; reflexivity]. Qed.

(** * Further properties of the loss model *)

(** Distinctness of the names of a literal dictionary. *)
Ltac solve_not_in :=
  let Hin := fresh "Hin" in
  intros Hin;
  repeat (apply elem_of_cons in Hin as [Hin|Hin]; [discriminate |]);
  by apply elem_of_nil in Hin.

Ltac solve_NoDup :=
  vm_compute;
  repeat (apply NoDup_cons; split; [solve_not_in |]);
  apply NoDup_nil; exact I.


Section LossModel.
Import SystemLosses.

Lemma series_mul_scalar_lookup (s : Series) (c : Q) (i : nat) :
  series_mul_scalar s c !! i = (fun v => fmul v (Num c)) <$> s !! i.
Proof. unfold series_mul_scalar. apply list_lookup_fmap. Qed.

Lemma apply_all_losses_cons (k : string) (v : Q) (L : LossParams)
    (s : Series) :
  apply_all_losses {| loss_params := (k, v) :: L |} s
  = apply_all_losses {| loss_params := L |}
      (if Qlt_bool 0 v then series_mul_scalar s (1 - v) else s).
Proof. reflexivity. Qed.

Lemma retained_product_bounds (L : LossParams) :
  Forall (fun kv => 0 <= kv.2 /\ kv.2 <= 1) L ->
  0 <= retained_product L <= 1.
Proof.
  induction 1 as [|[k v] L [Hv0 Hv1] _ IH]; simpl in *; [lra | nra].
Qed.

Lemma retained_product_pos (L : LossParams) :
  Forall (fun kv => 0 <= kv.2 /\ kv.2 < 1) L -> 0 < retained_product L.
Proof.
  induction 1 as [|[k v] L [Hv0 Hv1] _ IH]; simpl in *; [lra | nra].
Qed.

Lemma efficiency_and_loss_percentage_bounds_aux (L : LossParams) :
  Forall (fun kv => 0 <= kv.2 /\ kv.2 <= 1) L ->
  0 <= get_total_loss_factor {| loss_params := L |} <= 1
  /\ 0 <= get_total_loss_percentage {| loss_params := L |} <= 100.
Proof.
  intros HL. unfold get_total_loss_percentage.
  pose proof (total_loss_factor_retained L) as E.
  pose proof (retained_product_bounds L HL) as Hb.
  rewrite E. split; lra.
Qed.

Lemma dict_get_elem (L : LossParams) (k : string) (v : Q) :
  NoDup L.*1 -> (k, v) ∈ L -> dict_get L k = Some v.
Proof.
  induction L as [|[k' v'] L IH]; csimpl; intros Hnd Hin.
  - by apply elem_of_nil in Hin.
  - apply NoDup_cons in Hnd as [Hk Hnd].
    apply elem_of_cons in Hin as [Heq|Hin].
    + injection Heq as <- <-. by rewrite String.eqb_refl.
    + destruct (String.eqb_spec k k') as [->|Hne]; [| by apply IH].
      exfalso. apply Hk. apply list_elem_of_fmap. by exists (k', v).
Qed.

End LossModel.

(** X1. With every fraction in [0,1], the cascade keeps a power value
    p >= 0 between 0 and p, and keeps a missing value missing. *)
Theorem apply_all_losses_never_increases
    (L : SystemLosses.LossParams) (dc_power : Series) (i : nat) :
  Forall (fun kv => 0 <= kv.2 /\ kv.2 <= 1) L ->
  let after :=
    SystemLosses.apply_all_losses {| SystemLosses.loss_params := L |}
      dc_power in
  (forall p : Q,
     dc_power !! i = Some (Num p) -> 0 <= p ->
     exists r : Q, after !! i = Some (Num r) /\ 0 <= r <= p)
  /\ (dc_power !! i = Some NaN -> after !! i = Some NaN).
Proof.
  intros HL. revert dc_power.
  induction HL as [|[k v] L [Hv0 Hv1] _ IH]; intros dc_power after.
  - split; [intros p Hp Hp0; exists p; split; [exact Hp | lra] | done].
  - unfold after. rewrite apply_all_losses_cons.
    destruct (Qlt_bool 0 v); [| apply IH].
    simpl in Hv0, Hv1. split.
    + intros p Hp Hp0.
      destruct (proj1 (IH (series_mul_scalar dc_power (1 - v)))
                  (p * (1 - v))) as (r & Hr & Hr0).
      * by rewrite series_mul_scalar_lookup, Hp.
      * nra.
      * exists r. split; [exact Hr | nra].
    + intros Hp. apply IH. by rewrite series_mul_scalar_lookup, Hp.
Qed.

Lemma apply_all_losses_never_increases_witness :
  exists r : Q,
    SystemLosses.apply_all_losses {| SystemLosses.loss_params := LOSSES |}
      [Num 1000; NaN] !! 0%nat = Some (Num r)
    /\ 0 <= r <= 1000.
Proof.
  apply (proj1 (apply_all_losses_never_increases LOSSES [Num 1000; NaN] 0%nat
                  ltac:(repeat constructor; simpl; lra)) 1000 eq_refl).
  lra.
Defined.

(** X2. The cascade skips every category whose value is not positive, a
    negative value included: it gives what it gives on the positive
    categories alone, and returns its input unchanged when no value is
    positive. *)
Theorem apply_all_losses_skips_nonpositive
    (L : SystemLosses.LossParams) (dc_power : Series) :
  SystemLosses.apply_all_losses {| SystemLosses.loss_params := L |} dc_power
  = SystemLosses.apply_all_losses
      {| SystemLosses.loss_params := positive_losses L |} dc_power
  /\ (Forall (fun kv => kv.2 <= 0) L ->
      SystemLosses.apply_all_losses {| SystemLosses.loss_params := L |}
        dc_power = dc_power).
Proof.
  split.
  - revert dc_power. induction L as [|[k v] L IH]; intros s; [reflexivity |].
    rewrite apply_all_losses_cons. unfold positive_losses.
    rewrite filter_cons. simpl.
    destruct (Qlt_bool 0 v) eqn:E.
    + rewrite decide_True by done. rewrite apply_all_losses_cons, E.
      apply IH.
    + rewrite decide_False by congruence. apply IH.
  - intros HL. revert dc_power.
    induction HL as [|[k v] L Hv _ IH]; intros s; [reflexivity |].
    rewrite apply_all_losses_cons. simpl in Hv.
    destruct (Qlt_bool 0 v) eqn:E; [| apply IH].
    apply Qlt_bool_iff in E. lra.
Qed.

Lemma apply_all_losses_skips_nonpositive_witness :
  SystemLosses.apply_all_losses
    {| SystemLosses.loss_params := [("shading", 0.00); ("gain", -0.5)]%string |}
    [Num 100] = [Num 100].
Proof.
  apply (proj2 (apply_all_losses_skips_nonpositive
                  [("shading", 0.00); ("gain", -0.5)]%string [Num 100])).
  repeat constructor; simpl; lra.
Defined.

Section LossModelMore.
Import SystemLosses.

Lemma series_mul_scalar_proper (s s' : Series) (c c' : Q) :
  Forall2 feq s s' -> c == c' ->
  Forall2 feq (series_mul_scalar s c) (series_mul_scalar s' c').
Proof.
  intros Hs Hc. unfold series_mul_scalar. apply Forall2_fmap.
  eapply Forall2_impl; [exact Hs |]. intros v v' Hv.
  apply fmul_proper; [exact Hv | exact Hc].
Qed.

(** Applying by name the categories of a suffix of the profile. *)
Lemma apply_losses_in_turn_suffix (L L' : LossParams) :
  (forall kv, kv ∈ L' -> dict_get L kv.1 = Some kv.2) ->
  forall p p' : Series,
    Forall2 feq p p' ->
    exists r : Series,
      fold_left (fun (acc : result Series) (loss_name : string) =>
                   power <- acc ;;
                   apply_individual_loss {| loss_params := L |} power
                     loss_name)
                (L'.*1) (Ok p) = Ok r
      /\ Forall2 feq r (series_mul_scalar p' (retained_product L')).
Proof.
  induction L' as [|[k v] L' IH]; intros Hget p p' Hp; csimpl.
  - exists p. split; [reflexivity |].
    etrans; [exact Hp |]. symmetry. apply series_mul_scalar_one.
  - pose proof (Hget (k, v) ltac:(left)) as Hk. simpl in Hk.
    replace (apply_individual_loss {| loss_params := L |} p k)
      with (Ok (series_mul_scalar p (1 - v)) : result Series)
      by (unfold apply_individual_loss; simpl; by rewrite Hk).
    destruct (IH (fun kv Hin => Hget kv (proj2 (elem_of_cons _ _ _) (or_intror Hin)))
                (series_mul_scalar p (1 - v))
                (series_mul_scalar p' (1 - v)))
      as (r & Hr & Hfeq).
    { apply series_mul_scalar_proper; [exact Hp | reflexivity]. }
    exists r. split; [exact Hr |].
    etrans; [exact Hfeq |]. apply series_mul_scalar_twice.
Qed.

End LossModelMore.

(** X3. Applying the categories of a profile one at a time by name, in any
    profile with distinct names and fractions >= 0, never fails and gives the
    power the cascade gives. *)
Theorem in_turn_is_cascade
    (L : SystemLosses.LossParams) (power : Series) :
  NoDup L.*1 ->
  Forall (fun kv => 0 <= kv.2) L ->
  let self := {| SystemLosses.loss_params := L |} in
  exists r : Series,
    apply_losses_in_turn self (L.*1) power = Ok r
    /\ Forall2 feq r (SystemLosses.apply_all_losses self power).
Proof.
  intros Hnd HL self.
  destruct (apply_losses_in_turn_suffix L L) with (p := power) (p' := power)
    as (r & Hr & Hfeq).
  - intros [k v] Hin. by apply dict_get_elem.
  - reflexivity.
  - exists r. split; [exact Hr |].
    etrans; [exact Hfeq |]. symmetry.
    etrans; [apply fold_apply_loss_step |].
    apply series_mul_scalar_feq, cascade_factor_retained, HL.
Qed.

Lemma in_turn_is_cascade_witness :
  exists r : Series,
    apply_losses_in_turn {| SystemLosses.loss_params := LOSSES |}
      (LOSSES.*1) [Num 1000; NaN] = Ok r
    /\ Forall2 feq r
         (SystemLosses.apply_all_losses
            {| SystemLosses.loss_params := LOSSES |} [Num 1000; NaN]).
Proof.
  apply (in_turn_is_cascade LOSSES [Num 1000; NaN]).
  - vm_compute. repeat (apply NoDup_cons; split;
      [intros Hin;
       repeat (apply elem_of_cons in Hin as [Hin|Hin]; [discriminate |]);
       by apply elem_of_nil in Hin |]).
    apply NoDup_nil. exact I.
  - repeat constructor; simpl; lra.
Defined.

(** X4. With every fraction in [0,1], the system efficiency (the total
    loss factor) lies in [0,1] and the total loss percentage in [0,100]. *)
Theorem efficiency_and_loss_percentage_within (L : SystemLosses.LossParams) :
  Forall (fun kv => 0 <= kv.2 /\ kv.2 <= 1) L ->
  let self := {| SystemLosses.loss_params := L |} in
  0 <= SystemLosses.get_system_efficiency self <= 1
  /\ 0 <= SystemLosses.get_total_loss_percentage self <= 100.
Proof.
  intros HL self.
  unfold SystemLosses.get_system_efficiency,
    SystemLosses.get_total_loss_percentage.
  pose proof (total_loss_factor_retained L) as E. fold self in E.
  pose proof (retained_product_bounds L HL) as Hb.
  rewrite E. split; lra.
Qed.

Lemma efficiency_and_loss_percentage_within_witness :
  0 <= SystemLosses.get_system_efficiency
         {| SystemLosses.loss_params := LOSSES |} <= 1
  /\ 0 <= SystemLosses.get_total_loss_percentage
            {| SystemLosses.loss_params := LOSSES |} <= 100.
Proof.
  apply (efficiency_and_loss_percentage_within LOSSES).
  repeat constructor; simpl; lra.
Defined.

(** X5. With every fraction in [0,1] and an original energy >= 0, the
    annual impact estimate keeps the original energy, reports a final and a
    lost energy that both lie between 0 and the original energy, and an
    efficiency and a loss percentage that both lie in [0,100]. *)
Theorem annual_loss_impact_within
    (L : SystemLosses.LossParams) (dc_energy_annual_kwh : Q) :
  Forall (fun kv => 0 <= kv.2 /\ kv.2 <= 1) L ->
  0 <= dc_energy_annual_kwh ->
  let self := {| SystemLosses.loss_params := L |} in
  let impact :=
    SystemLosses.estimate_annual_loss_impact self dc_energy_annual_kwh in
  SystemLosses.original_dc_energy_kwh impact = dc_energy_annual_kwh
  /\ 0 <= SystemLosses.final_dc_energy_kwh impact <= dc_energy_annual_kwh
  /\ 0 <= SystemLosses.total_loss_energy_kwh impact <= dc_energy_annual_kwh
  /\ 0 <= SystemLosses.system_efficiency impact <= 100
  /\ 0 <= SystemLosses.total_loss_percentage impact <= 100.
Proof.
  intros HL He self impact.
  destruct (efficiency_and_loss_percentage_bounds_aux L HL) as [Heff Hpct].
  unfold impact, SystemLosses.estimate_annual_loss_impact. simpl.
  fold self in Heff, Hpct.
  split; [reflexivity |]. repeat split; try lra; nra.
Qed.

Lemma annual_loss_impact_within_witness :
  0 <= SystemLosses.final_dc_energy_kwh
         (SystemLosses.estimate_annual_loss_impact
            {| SystemLosses.loss_params := LOSSES |} 1500000)
    <= 1500000.
Proof.
  apply (annual_loss_impact_within LOSSES 1500000).
  - repeat constructor; simpl; lra.
  - lra.
Defined.

(** ** The loss breakdown *)

Section Breakdown.
Import SystemLosses.

Lemma dict_set_fresh {V : Type} (d : list (string * V)) (k : string)
    (v : V) :
  k ∉ d.*1 -> dict_set d k v = d ++ [(k, v)].
Proof.
  induction d as [|[k' v'] d IH]; csimpl; intros Hk; [reflexivity |].
  destruct (String.eqb_spec k k') as [->|Hne].
  - exfalso. apply Hk. left.
  - rewrite IH; [reflexivity |]. intros Hin. apply Hk. by right.
Qed.

Lemma dict_set_present {V : Type} (d1 d2 : list (string * V)) (k : string)
    (old v : V) :
  k ∉ d1.*1 -> dict_set (d1 ++ (k, old) :: d2) k v = d1 ++ (k, v) :: d2.
Proof.
  induction d1 as [|[k' v'] d1 IH]; csimpl; intros Hk.
  - by rewrite String.eqb_refl.
  - destruct (String.eqb_spec k k') as [->|Hne].
    + exfalso. apply Hk. left.
    + rewrite IH; [reflexivity |]. intros Hin. apply Hk. by right.
Qed.

Lemma breakdown_rows_keys (L : LossParams) (cum : Series) :
  (breakdown_rows L cum).*1 = (positive_losses L).*1.
Proof.
  revert cum. induction L as [|[k v] L IH]; intros cum; [reflexivity |].
  unfold positive_losses. rewrite filter_cons. simpl.
  destruct (Qlt_bool 0 v) eqn:E.
  - rewrite decide_True by done. csimpl. f_equal. apply IH.
  - rewrite decide_False by congruence. apply IH.
Qed.

Lemma positive_losses_keys_subseteq (L : LossParams) (k : string) :
  k ∈ (positive_losses L).*1 -> k ∈ L.*1.
Proof.
  intros ([k' v] & -> & Hin)%list_elem_of_fmap.
  apply list_elem_of_fmap. exists (k', v). split; [reflexivity |].
  unfold positive_losses in Hin. by apply list_elem_of_filter in Hin as [_ ?].
Qed.

(** The loop of [get_loss_breakdown] appends the rows of the positive
    categories and leaves the power the cascade leaves. *)
Lemma fold_breakdown_step (L : LossParams)
    (b0 : list (string * BreakdownEntry)) (cum : Series) :
  NoDup L.*1 -> (forall k, k ∈ L.*1 -> k ∉ b0.*1) ->
  fold_left breakdown_step L (b0, cum)
  = (b0 ++ breakdown_rows L cum, fold_left apply_loss_step L cum).
Proof.
  revert b0 cum. induction L as [|[k v] L IH]; intros b0 cum Hnd Hfresh.
  - simpl. by rewrite app_nil_r.
  - csimpl in Hnd. apply NoDup_cons in Hnd as [Hk Hnd]. simpl.
    destruct (Qlt_bool 0 v) eqn:E.
    + rewrite dict_set_fresh by (apply Hfresh; csimpl; left).
      rewrite IH; [by rewrite <- app_assoc | exact Hnd |].
      intros k' Hk'. rewrite fmap_app. csimpl.
      intros [Hin|Hin]%elem_of_app.
      * apply (Hfresh k'); [csimpl; by right | exact Hin].
      * apply list_elem_of_singleton in Hin as ->. by apply Hk.
    + apply IH; [exact Hnd |]. intros k' Hk'. apply Hfresh. csimpl. by right.
Qed.

Lemma get_loss_breakdown_unfold (L : LossParams) (dc : Series) :
  NoDup L.*1 ->
  let self := {| loss_params := L |} in
  get_loss_breakdown self dc
  = dict_set (breakdown_rows L dc) "total"
      {| percentage := get_total_loss_percentage self;
         energy_loss_kwh :=
           series_sum dc - series_sum (apply_all_losses self dc) |}.
Proof.
  intros Hnd self. unfold get_loss_breakdown. simpl.
  rewrite fold_breakdown_step; [reflexivity | exact Hnd |].
  intros k _ Hin. by apply elem_of_nil in Hin.
Qed.

End Breakdown.

(** X6. For a profile with distinct names, none of them "total", the
    breakdown lists the categories with a positive value, in the order of the
    profile, and then the row "total"; a category with value zero has no
    row. *)
Theorem breakdown_lists_positive_categories_then_total
    (L : SystemLosses.LossParams) (dc_power_series : Series) :
  NoDup L.*1 -> "total"%string ∉ L.*1 ->
  (SystemLosses.get_loss_breakdown {| SystemLosses.loss_params := L |}
     dc_power_series).*1
  = (positive_losses L).*1 ++ ["total"%string].
Proof.
  intros Hnd Htot. rewrite get_loss_breakdown_unfold by exact Hnd.
  rewrite dict_set_fresh.
  - rewrite fmap_app, breakdown_rows_keys. reflexivity.
  - rewrite breakdown_rows_keys. intros Hin.
    by apply Htot, positive_losses_keys_subseteq.
Qed.

Lemma breakdown_lists_positive_categories_then_total_witness :
  (SystemLosses.get_loss_breakdown {| SystemLosses.loss_params := LOSSES |}
     [Num 800; NaN; Num 200]).*1
  = ["soiling"; "mismatch"; "wiring"; "connections"; "lid";
     "nameplate_rating"; "availability"; "total"]%string.
Proof.
  rewrite (breakdown_lists_positive_categories_then_total LOSSES
             [Num 800; NaN; Num 200]).
  - reflexivity.
  - vm_compute. repeat (apply NoDup_cons; split;
      [intros Hin;
       repeat (apply elem_of_cons in Hin as [Hin|Hin]; [discriminate |]);
       by apply elem_of_nil in Hin |]).
    apply NoDup_nil. exact I.
  - vm_compute. intros Hin.
    repeat (apply elem_of_cons in Hin as [Hin|Hin]; [discriminate |]).
    by apply elem_of_nil in Hin.
Defined.

Section BreakdownRows.
Import SystemLosses.

Lemma dict_set_lookup {V : Type} (d : list (string * V)) (k : string)
    (v e : V) :
  NoDup d.*1 -> (k, e) ∈ dict_set d k v -> e = v.
Proof.
  induction d as [|[k' v'] d IH]; csimpl; intros Hnd Hin.
  - apply list_elem_of_singleton in Hin. congruence.
  - apply NoDup_cons in Hnd as [Hk Hnd].
    destruct (String.eqb_spec k k') as [->|Hne].
    + apply elem_of_cons in Hin as [Heq|Hin]; [congruence |].
      exfalso. apply Hk. apply list_elem_of_fmap. by exists (k', e).
    + apply elem_of_cons in Hin as [Heq|Hin]; [congruence | by apply IH].
Qed.

Lemma dict_set_elem {V : Type} (d : list (string * V)) (k : string)
    (v : V) :
  (k, v) ∈ dict_set d k v.
Proof.
  induction d as [|[k' v'] d IH]; simpl; [left |].
  destruct (String.eqb_spec k k') as [->|_]; [left | by right].
Qed.

Lemma dict_set_keys_present {V : Type} (d : list (string * V)) (k : string)
    (v : V) :
  k ∈ d.*1 -> (dict_set d k v).*1 = d.*1.
Proof.
  induction d as [|[k' v'] d IH]; csimpl; intros Hin.
  - by apply elem_of_nil in Hin.
  - destruct (String.eqb_spec k k') as [->|Hne]; [reflexivity |].
    csimpl. f_equal. apply IH.
    apply elem_of_cons in Hin as [?|?]; [congruence | done].
Qed.

Lemma dict_set_other {V : Type} (d : list (string * V)) (k k' : string)
    (e v : V) :
  k <> k' -> (k, e) ∈ d -> (k, e) ∈ dict_set d k' v.
Proof.
  intros Hne. induction d as [|[k0 v0] d IH]; csimpl; intros Hin.
  - by apply elem_of_nil in Hin.
  - apply elem_of_cons in Hin as [Heq|Hin].
    + injection Heq as <- <-.
      destruct (String.eqb_spec k' k) as [->|_]; [done | left].
    + destruct (String.eqb_spec k' k0) as [->|_]; right; [done | by apply IH].
Qed.

Lemma positive_losses_keys_NoDup (L : LossParams) :
  NoDup L.*1 -> NoDup (positive_losses L).*1.
Proof.
  induction L as [|[k v] L IH]; csimpl; intros Hnd; [constructor |].
  apply NoDup_cons in Hnd as [Hk Hnd]. unfold positive_losses.
  rewrite filter_cons. simpl.
  destruct (decide (Qlt_bool 0 v = true)); [| by apply IH].
  csimpl. apply NoDup_cons. split; [| by apply IH].
  intros Hin. by apply Hk, positive_losses_keys_subseteq.
Qed.

Lemma breakdown_rows_app (L1 L2 : LossParams) (cum : Series) :
  breakdown_rows (L1 ++ L2) cum
  = breakdown_rows L1 cum
    ++ breakdown_rows L2 (fold_left apply_loss_step L1 cum).
Proof.
  revert cum. induction L1 as [|[k v] L1 IH]; intros cum; [reflexivity |].
  simpl. destruct (Qlt_bool 0 v); [| apply IH].
  rewrite IH. reflexivity.
Qed.

End BreakdownRows.

(** X7. For a profile with distinct names, the breakdown has a row
    "total"; it carries the total loss percentage, and its energy loss is the
    summed input power minus the summed power the cascade
    [apply_all_losses] leaves. *)
Theorem breakdown_total_row
    (L : SystemLosses.LossParams) (dc_power_series : Series) :
  NoDup L.*1 ->
  let self := {| SystemLosses.loss_params := L |} in
  let breakdown := SystemLosses.get_loss_breakdown self dc_power_series in
  (exists total : SystemLosses.BreakdownEntry,
     ("total"%string, total) ∈ breakdown)
  /\ forall total : SystemLosses.BreakdownEntry,
       ("total"%string, total) ∈ breakdown ->
       SystemLosses.percentage total
       = SystemLosses.get_total_loss_percentage self
       /\ SystemLosses.energy_loss_kwh total
          = series_sum dc_power_series
            - series_sum
                (SystemLosses.apply_all_losses self dc_power_series).
Proof.
  intros Hnd self breakdown. unfold breakdown, self.
  rewrite get_loss_breakdown_unfold by exact Hnd. split.
  - eexists. apply dict_set_elem.
  - intros total Hin. apply dict_set_lookup in Hin as ->.
    + split; reflexivity.
    + rewrite breakdown_rows_keys. by apply positive_losses_keys_NoDup.
Qed.

Lemma breakdown_total_row_witness :
  exists total : SystemLosses.BreakdownEntry,
    ("total"%string, total)
      ∈ SystemLosses.get_loss_breakdown
          {| SystemLosses.loss_params := [("soiling", 0.02); ("age", 0.00)]%string |}
          [Num 800; NaN; Num 200]
    /\ SystemLosses.energy_loss_kwh total == 20.
Proof.
  destruct (breakdown_total_row [("soiling", 0.02); ("age", 0.00)]%string
              [Num 800; NaN; Num 200] ltac:(solve_NoDup))
    as [[total Hin] Hrow].
  exists total. split; [exact Hin |].
  rewrite (proj2 (Hrow total Hin)). reflexivity.
Defined.

(** X9. The energy loss the breakdown attributes to a category with a
    positive value is its fraction of the summed power that the cascade of
    the categories before it leaves; its percentage is its fraction
    times 100. *)
Theorem breakdown_attribution_follows_cascade
    (L1 L2 : SystemLosses.LossParams) (k : string) (v : Q)
    (dc_power_series : Series) :
  NoDup (L1 ++ (k, v) :: L2).*1 -> k <> "total"%string -> 0 < v ->
  exists e : SystemLosses.BreakdownEntry,
    (k, e) ∈ SystemLosses.get_loss_breakdown
               {| SystemLosses.loss_params := L1 ++ (k, v) :: L2 |}
               dc_power_series
    /\ SystemLosses.percentage e = v * 100
    /\ SystemLosses.energy_loss_kwh e
       = series_sum
           (series_mul_scalar
              (SystemLosses.apply_all_losses
                 {| SystemLosses.loss_params := L1 |} dc_power_series) v).
Proof.
  intros Hnd Hk Hv. rewrite get_loss_breakdown_unfold by exact Hnd.
  rewrite breakdown_rows_app. simpl.
  apply Qlt_bool_iff in Hv as Hb. rewrite Hb.
  eexists. split.
  - apply dict_set_other; [exact Hk |].
    apply elem_of_app. right. left.
  - split; reflexivity.
Qed.

Lemma breakdown_attribution_follows_cascade_witness :
  exists e : SystemLosses.BreakdownEntry,
    (("mismatch"%string, e)
       ∈ SystemLosses.get_loss_breakdown
           {| SystemLosses.loss_params :=
                [("soiling", 0.02)]%string ++ ("mismatch"%string, 0.02) :: [] |}
           [Num 1000])
    /\ SystemLosses.energy_loss_kwh e == 1000 * 0.98 * 0.02.
Proof.
  destruct (breakdown_attribution_follows_cascade
              [("soiling", 0.02)]%string [] "mismatch" 0.02 [Num 1000])
    as (e & Hin & _ & He).
  - solve_NoDup.
  - discriminate.
  - lra.
  - exists e. split; [exact Hin |]. rewrite He. reflexivity.
Defined.

(** X10. A category that is itself named "total" and has a positive value
    loses its row: the total row takes its place, so the breakdown has one
    row per positive category and the row "total" carries the total loss
    percentage. *)
Theorem breakdown_total_name_collision
    (L : SystemLosses.LossParams) (v : Q) (dc_power_series : Series) :
  NoDup L.*1 -> ("total"%string, v) ∈ L -> 0 < v ->
  let self := {| SystemLosses.loss_params := L |} in
  let breakdown := SystemLosses.get_loss_breakdown self dc_power_series in
  breakdown.*1 = (positive_losses L).*1
  /\ forall e : SystemLosses.BreakdownEntry,
       ("total"%string, e) ∈ breakdown ->
       SystemLosses.percentage e
       = SystemLosses.get_total_loss_percentage self.
Proof.
  intros Hnd Hin Hv self breakdown. unfold breakdown, self.
  rewrite get_loss_breakdown_unfold by exact Hnd. split.
  - rewrite dict_set_keys_present; [apply breakdown_rows_keys |].
    rewrite breakdown_rows_keys. apply list_elem_of_fmap.
    exists ("total"%string, v). split; [reflexivity |].
    unfold positive_losses. apply list_elem_of_filter. split; [| exact Hin].
    by apply Qlt_bool_iff.
  - intros e He. apply dict_set_lookup in He as ->; [reflexivity |].
    rewrite breakdown_rows_keys. by apply positive_losses_keys_NoDup.
Qed.

Lemma breakdown_total_name_collision_witness :
  (SystemLosses.get_loss_breakdown
     {| SystemLosses.loss_params := [("total", 0.25); ("lid", 0.5)]%string |}
     [Num 100]).*1 = ["total"; "lid"]%string.
Proof.
  apply (proj1 (breakdown_total_name_collision
                  [("total", 0.25); ("lid", 0.5)]%string 0.25 [Num 100]
                  ltac:(solve_NoDup)
                  ltac:(left) ltac:(lra))).
Defined.

(** * Further properties of the temperature model *)

Section TemperatureMore.
Context {pvlib : Pvlib}.
Import TemperatureModel.

Lemma clip_value_idempotent (lo hi : Q) (v : pyfloat) :
  lo <= hi ->
  clip_value (Some lo) (Some hi) (clip_value (Some lo) (Some hi) v)
  = clip_value (Some lo) (Some hi) v.
Proof.
  intros Hlh. destruct v as [|x]; [by rewrite !clip_value_NaN |].
  destruct (clip_value_Num lo hi x Hlh) as (y & -> & Hy & _).
  destruct (clip_value_Num lo hi y Hlh) as (z & -> & _ & Hz & _).
  by rewrite (Hz Hy).
Qed.

Lemma clip_value_Num_inv (lo hi : Q) (v : pyfloat) (c : Q) :
  lo <= hi -> clip_value (Some lo) (Some hi) v = Num c ->
  exists x : Q, v = Num x /\ lo <= c <= hi
                /\ (x <= hi -> x <= c) /\ (lo <= x -> c <= x)
                /\ (hi < x -> c = hi).
Proof.
  intros Hlh Hc. destruct v as [|x]; [by rewrite clip_value_NaN in Hc |].
  destruct (clip_value_Num lo hi x Hlh) as (y & Hy & Hb & Hin & Hhi & Hlo).
  rewrite Hy in Hc. injection Hc as <-. exists x.
  split; [reflexivity |]. split; [exact Hb |]. split; [| split; [| exact Hhi]].
  - intros Hx. destruct (Qlt_le_dec x lo) as [Hl|Hl].
    + rewrite (Hlo Hl). lra.
    + rewrite Hin; lra.
  - intros Hx. destruct (Qlt_le_dec hi x) as [Hl|Hl].
    + rewrite (Hhi Hl). lra.
    + rewrite Hin; lra.
Qed.

Lemma fmaximum_Num_inv (a b : pyfloat) (y : Q) :
  fmaximum a b = Num y ->
  exists xa xb : Q, a = Num xa /\ b = Num xb /\ xa <= y /\ xb <= y.
Proof.
  destruct a as [|xa], b as [|xb]; simpl; try discriminate.
  destruct (Qle_bool xa xb) eqn:E; intros [= <-]; exists xa, xb;
    [apply Qle_bool_iff in E | apply Qle_bool_false in E];
    split_and!; try reflexivity; lra.
Qed.

(** An element of the returned series is the clamped maximum of a value
    and the ambient temperature of that hour. *)
Lemma cell_temperature_element (self : t)
    (poa_global temp_air wind_speed cell_temp : Series) (i : nat)
    (v : pyfloat) :
  calculate_cell_temperature self poa_global temp_air wind_speed
    = Ok cell_temp ->
  cell_temp !! i = Some v ->
  exists x a : pyfloat,
    temp_air !! i = Some a
    /\ v = clip_value (Some (-40)) (Some 85) (fmaximum x a).
Proof.
  intros Hcall Hv.
  destruct (calculate_cell_temperature_post _ _ _ _ _ Hcall)
    as (raw & -> & _).
  unfold clip, np_maximum in Hv.
  apply list_lookup_fmap_Some in Hv as (m & -> & Hm).
  apply lookup_zip_with_Some in Hm as (x & a & -> & _ & Ha).
  by exists x, a.
Qed.

End TemperatureMore.

(** X11. Every number in the series returned by
    [calculate_cell_temperature] lies in [-40, 85] and is not below the
    ambient temperature of its hour (for an ambient temperature up to 85);
    an hour whose ambient temperature is missing has a missing cell
    temperature. *)
Theorem cell_temperature_range_and_floor {pvlib : Pvlib}
    (self : TemperatureModel.t)
    (poa_global temp_air wind_speed cell_temp : Series) (i : nat) :
  TemperatureModel.calculate_cell_temperature
    self poa_global temp_air wind_speed = Ok cell_temp ->
  (forall c : Q, cell_temp !! i = Some (Num c) -> -40 <= c <= 85)
  /\ (forall a c : Q,
        temp_air !! i = Some (Num a) -> cell_temp !! i = Some (Num c) ->
        a <= 85 -> a <= c)
  /\ (temp_air !! i = Some NaN ->
      forall v : pyfloat, cell_temp !! i = Some v -> v = NaN).
Proof.
  intros Hcall. split_and!.
  - intros c Hc.
    destruct (cell_temperature_element _ _ _ _ _ _ _ Hcall Hc)
      as (x & a & _ & Hv).
    symmetry in Hv.
    destruct (clip_value_Num_inv (-40) 85 _ _ ltac:(lra) Hv)
      as (_ & _ & Hb & _).
    exact Hb.
  - intros a c Ha Hc Ha85.
    destruct (cell_temperature_element _ _ _ _ _ _ _ Hcall Hc)
      as (x & a' & Ha' & Hv).
    rewrite Ha in Ha'. injection Ha' as <-.
    symmetry in Hv.
    destruct (clip_value_Num_inv (-40) 85 _ _ ltac:(lra) Hv)
      as (y & Hy & Hb & Hup & _ & Hhi).
    apply fmaximum_Num_inv in Hy as (xa & xb & _ & [= <-] & _ & Hya).
    destruct (Qlt_le_dec 85 y) as [Hl|Hl]; [rewrite (Hhi Hl); lra |].
    specialize (Hup Hl). lra.
  - intros Ha v Hv.
    destruct (cell_temperature_element _ _ _ _ _ _ _ Hcall Hv)
      as (x & a' & Ha' & ->).
    rewrite Ha in Ha'. injection Ha' as <-.
    destruct x; simpl; apply clip_value_NaN.
Qed.

Lemma cell_temperature_range_and_floor_witness :
  exists c : Q,
    TemperatureModel.calculate_cell_temperature (pvlib := sample_pvlib)
      {| TemperatureModel.mounting_type := "roof_mounted";
         TemperatureModel.model := "noct";
         TemperatureModel.params := [] |}
      [Num 800] [Num 30] [Num 1] = Ok [Num c]
    /\ 30 <= c <= 85.
Proof.
  exists (30 + 800 * ((50 - 20) / 800)).
  assert (TemperatureModel.calculate_cell_temperature (pvlib := sample_pvlib)
            {| TemperatureModel.mounting_type := "roof_mounted";
               TemperatureModel.model := "noct";
               TemperatureModel.params := [] |}
            [Num 800] [Num 30] [Num 1]
          = Ok [Num (30 + 800 * ((50 - 20) / 800))]) as Hcall
    by reflexivity.
  split; [exact Hcall |].
  destruct (cell_temperature_range_and_floor (pvlib := sample_pvlib)
              _ _ _ _ _ 0%nat Hcall) as (Hrange & Hfloor & _).
  split; [apply (Hfloor 30 _ eq_refl eq_refl); lra |].
  apply (Hrange _ eq_refl).
Defined.

(** X12. Clamping the returned cell temperatures to [-40, 85] once more
    changes nothing, and neither does filling and clipping the
    incidence-angle modifier to [0, 1] once more. *)
Theorem reclipping_is_identity {pvlib : Pvlib}
    (tm : TemperatureModel.t) (im : IrradianceModel.t)
    (poa_global temp_air wind_speed cell_temp aoi : Series) :
  TemperatureModel.calculate_cell_temperature
    tm poa_global temp_air wind_speed = Ok cell_temp ->
  clip (Some (-40)) (Some 85) cell_temp = cell_temp
  /\ clip (Some 0) (Some 1)
          (fillna 0 (IrradianceModel._calculate_iam im aoi))
     = IrradianceModel._calculate_iam im aoi.
Proof.
  intros Hcall. split.
  - destruct (calculate_cell_temperature_post _ _ _ _ _ Hcall)
      as (raw & -> & _).
    unfold clip. rewrite <- list_fmap_compose. apply list_fmap_ext.
    intros j v _. simpl. apply clip_value_idempotent. lra.
  - unfold IrradianceModel._calculate_iam, clip, fillna.
    rewrite <- !list_fmap_compose. apply list_fmap_ext.
    intros j a _. simpl.
    destruct (fillna_value_Num 0 (iam_physical a 1.526 4.0 0.002))
      as (x & -> & _).
    destruct (clip_value_Num 0 1 x) as (y & -> & Hy & _); [lra |].
    simpl fillna_value.
    destruct (clip_value_Num 0 1 y) as (z & -> & _ & Hz & _); [lra |].
    by rewrite (Hz Hy).
Qed.

Lemma reclipping_is_identity_witness :
  clip (Some (-40)) (Some 85) [Num 30; Num 85]
  = [Num 30; Num 85].
Proof.
  assert (TemperatureModel.calculate_cell_temperature (pvlib := sample_pvlib)
            {| TemperatureModel.mounting_type := "roof_mounted";
               TemperatureModel.model := "noct";
               TemperatureModel.params := [] |}
            [Num 0; Num 0] [Num 30; Num 200] [Num 1; Num 1]
          = Ok [Num 30; Num 85]) as Hcall by reflexivity.
  exact (proj1 (reclipping_is_identity (pvlib := sample_pvlib) _
                  {| IrradianceModel.latitude := 0;
                     IrradianceModel.longitude := 0;
                     IrradianceModel.altitude := 0;
                     IrradianceModel.tilt := 0;
                     IrradianceModel.azimuth := 0;
                     IrradianceModel.albedo := 0 |}
                  _ _ _ _ [] Hcall)).
Defined.

Section TemperatureLoss.
Import TemperatureModel.

Lemma estimate_temperature_loss_lookup (self : t) (cell_temp : Series)
    (temp_ref gamma_pmp : option Q) (i : nat) :
  estimate_temperature_loss self cell_temp temp_ref gamma_pmp !! i
  = (fun v =>
       clip_value (Some 0.5) (Some 1.1)
         (fadd (Num 1)
            (fmul (Num (default (-0.0035) gamma_pmp))
               (fsub v (Num (default 25 temp_ref))))))
    <$> cell_temp !! i.
Proof.
  unfold estimate_temperature_loss, clip.
  by rewrite !list_lookup_fmap, <- option_fmap_compose.
Qed.

Lemma clip_value_monotone (lo hi x x' y y' : Q) :
  lo <= hi -> x <= x' ->
  clip_value (Some lo) (Some hi) (Num x) = Num y ->
  clip_value (Some lo) (Some hi) (Num x') = Num y' ->
  y <= y'.
Proof.
  intros Hlh Hx Hy Hy'.
  destruct (clip_value_Num lo hi x Hlh) as (z & Hz & Hb & Hin & Hhi & Hlo).
  destruct (clip_value_Num lo hi x' Hlh)
    as (z' & Hz' & Hb' & Hin' & Hhi' & Hlo').
  rewrite Hz in Hy. rewrite Hz' in Hy'.
  injection Hy as <-. injection Hy' as <-.
  destruct (Qlt_le_dec x lo) as [H1|H1];
    [rewrite (Hlo H1); lra |].
  destruct (Qlt_le_dec hi x') as [H2|H2];
    [rewrite (Hhi' H2); lra |].
  rewrite Hin, Hin'; lra.
Qed.

End TemperatureLoss.

(** X13. Every temperature coefficient returned by
    [estimate_temperature_loss] is a number of [0.5, 1.1], equal to
    1 + gamma_pmp * (cell_temp - temp_ref) when that lies in [0.5, 1.1]; a
    missing cell temperature gives a missing coefficient. *)
Theorem temperature_coefficient_bounds
    (self : TemperatureModel.t) (cell_temp : Series)
    (temp_ref gamma_pmp : option Q) (i : nat) :
  let T_ref := default 25 temp_ref in
  let gamma := default (-0.0035) gamma_pmp in
  let coefficient :=
    TemperatureModel.estimate_temperature_loss self cell_temp temp_ref
      gamma_pmp in
  (forall t : Q,
     cell_temp !! i = Some (Num t) ->
     exists k : Q,
       coefficient !! i = Some (Num k)
       /\ 0.5 <= k <= 1.1
       /\ (0.5 <= 1 + gamma * (t - T_ref) <= 1.1 ->
           k = 1 + gamma * (t - T_ref)))
  /\ (cell_temp !! i = Some NaN -> coefficient !! i = Some NaN).
Proof.
  intros T_ref gamma coefficient. unfold coefficient.
  rewrite estimate_temperature_loss_lookup. split.
  - intros t ->. simpl.
    destruct (clip_value_Num 0.5 1.1 (1 + gamma * (t - T_ref)))
      as (k & Hk & Hb & Hin & _); [lra |].
    exists k. split_and!; [by rewrite <- Hk | lra | lra | exact Hin].
  - intros ->. reflexivity.
Qed.

Lemma temperature_coefficient_bounds_witness :
  TemperatureModel.estimate_temperature_loss
    {| TemperatureModel.mounting_type := "roof_mounted";
       TemperatureModel.model := "faiman";
       TemperatureModel.params := [] |} [Num 45; NaN] None None !! 0%nat
  = Some (Num (1 + -0.0035 * (45 - 25))).
Proof.
  destruct (proj1 (temperature_coefficient_bounds
                     {| TemperatureModel.mounting_type := "roof_mounted";
                        TemperatureModel.model := "faiman";
                        TemperatureModel.params := [] |}
                     [Num 45; NaN] None None 0%nat) 45 eq_refl)
    as (k & Hk & _ & Hin).
  rewrite Hk, Hin; [reflexivity | simpl; lra].
Defined.

(** X14. With a temperature coefficient gamma_pmp <= 0, a hotter cell never
    gets a larger temperature coefficient. *)
Theorem temperature_coefficient_is_antitone
    (self : TemperatureModel.t) (cell_temp : Series)
    (temp_ref gamma_pmp : option Q) (i j : nat) (t1 t2 : Q) :
  default (-0.0035) gamma_pmp <= 0 ->
  cell_temp !! i = Some (Num t1) -> cell_temp !! j = Some (Num t2) ->
  t1 <= t2 ->
  let coefficient :=
    TemperatureModel.estimate_temperature_loss self cell_temp temp_ref
      gamma_pmp in
  exists k1 k2 : Q,
    coefficient !! i = Some (Num k1) /\ coefficient !! j = Some (Num k2)
    /\ k2 <= k1.
Proof.
  intros Hg H1 H2 Ht coefficient. unfold coefficient.
  rewrite !estimate_temperature_loss_lookup, H1, H2. simpl.
  set (g := default (-0.0035) gamma_pmp) in *.
  set (r := default 25 temp_ref).
  destruct (clip_value_Num 0.5 1.1 (1 + g * (t1 - r))) as (k1 & Hk1 & _);
    [lra |].
  destruct (clip_value_Num 0.5 1.1 (1 + g * (t2 - r))) as (k2 & Hk2 & _);
    [lra |].
  exists k1, k2. split_and!; [by rewrite <- Hk1 | by rewrite <- Hk2 |].
  eapply (clip_value_monotone 0.5 1.1 _ _ _ _ ltac:(lra) _ Hk2 Hk1).
  Unshelve. nra.
Qed.

Lemma temperature_coefficient_is_antitone_witness :
  exists k1 k2 : Q,
    TemperatureModel.estimate_temperature_loss
      {| TemperatureModel.mounting_type := "roof_mounted";
         TemperatureModel.model := "faiman";
         TemperatureModel.params := [] |} [Num 20; Num 60] None None
      !! 0%nat = Some (Num k1)
    /\ TemperatureModel.estimate_temperature_loss
         {| TemperatureModel.mounting_type := "roof_mounted";
            TemperatureModel.model := "faiman";
            TemperatureModel.params := [] |} [Num 20; Num 60] None None
         !! 1%nat = Some (Num k2)
    /\ k2 <= k1.
Proof.
  apply (temperature_coefficient_is_antitone
           {| TemperatureModel.mounting_type := "roof_mounted";
              TemperatureModel.model := "faiman";
              TemperatureModel.params := [] |}
           [Num 20; Num 60] None None 0%nat 1%nat 20 60);
    [simpl; lra | reflexivity | reflexivity | lra].
Defined.

(** X15. With the default coefficients, every temperature coefficient
    computed from the cell temperatures that [calculate_cell_temperature]
    returns lies in [0.79, 1.1]: the lower clip at 0.5 is never reached. *)
Theorem temperature_coefficient_of_model_output {pvlib : Pvlib}
    (self : TemperatureModel.t)
    (poa_global temp_air wind_speed cell_temp : Series) (i : nat) (k : Q) :
  TemperatureModel.calculate_cell_temperature
    self poa_global temp_air wind_speed = Ok cell_temp ->
  TemperatureModel.estimate_temperature_loss self cell_temp None None !! i
    = Some (Num k) ->
  0.79 <= k <= 1.1.
Proof.
  intros Hcall. rewrite estimate_temperature_loss_lookup.
  intros (v & Hv & Hk)%fmap_Some. simpl in Hk. symmetry in Hk.
  destruct (clip_value_Num_inv 0.5 1.1 _ _ ltac:(lra) Hk)
    as (x & Hx & Hb & Hup & Hlow & Hhi).
  destruct v as [|t]; [discriminate |]. simpl in Hx. injection Hx as <-.
  destruct (proj1 (cell_temperature_range_and_floor self _ _ _ _ i Hcall)
              t Hv) as [Ht1 Ht2].
  split; [| lra].
  destruct (Qlt_le_dec 1.1 (1 + -0.0035 * (t - 25))) as [Hl|Hl];
    [rewrite (Hhi Hl); lra |].
  specialize (Hup Hl). lra.
Qed.

Lemma temperature_coefficient_of_model_output_witness :
  0.79 <= 1 + -0.0035 * (85 - 25) <= 1.1.
Proof.
  apply (temperature_coefficient_of_model_output (pvlib := sample_pvlib)
           {| TemperatureModel.mounting_type := "roof_mounted";
              TemperatureModel.model := "noct";
              TemperatureModel.params := [] |}
           [Num 0] [Num 200] [Num 1] [Num 85] 0%nat);
    reflexivity.
Defined.

(** ** Temperature statistics *)

Section Statistics.

Lemma bool_sum_cons (b : bool) (m : list bool) :
  bool_sum (b :: m) = ((if b then 1 else 0) + bool_sum m)%nat.
Proof.
  unfold bool_sum. rewrite filter_cons.
  destruct b; [rewrite decide_True by done | rewrite decide_False by done];
    reflexivity.
Qed.

Lemma bool_sum_le_length (m : list bool) : (bool_sum m <= length m)%nat.
Proof.
  induction m as [|b m IH]; [unfold bool_sum; simpl; lia |].
  rewrite bool_sum_cons. destruct b; simpl; lia.
Qed.

Lemma bool_sum_gt_antitone (s : Series) (c c' : Q) :
  c <= c' ->
  (bool_sum (series_gt_scalar s c') <= bool_sum (series_gt_scalar s c))%nat.
Proof.
  intros Hc. unfold series_gt_scalar.
  induction s as [|v s IH]; csimpl; [lia |].
  rewrite !bool_sum_cons.
  destruct v as [|x]; simpl; [lia |].
  destruct (Qlt_bool c' x) eqn:E'; destruct (Qlt_bool c x) eqn:E; try lia.
  apply Qlt_bool_iff in E'.
  assert (~ c < x) as Hn by (rewrite <- Qlt_bool_iff; congruence). lra.
Qed.

Lemma boolean_index_no_true (s : Series) (mask : list bool) :
  Forall (fun b => b = false) mask -> boolean_index s mask = [].
Proof.
  intros Hm. revert s.
  induction Hm as [|b mask -> _ IH]; intros [|v s]; simpl; try reflexivity.
  apply IH.
Qed.

Lemma boolean_index_Forall (P : pyfloat -> Prop) (s : Series)
    (mask : list bool) :
  Forall P s -> Forall P (boolean_index s mask).
Proof.
  intros Hs. revert mask.
  induction Hs as [|v s Hv _ IH]; intros [|b mask]; simpl;
    try constructor.
  destruct b; [constructor; [exact Hv | apply IH] | apply IH].
Qed.

Lemma series_count_cons (v : pyfloat) (s : Series) :
  series_count (v :: s)
  = ((if is_nan v then 0 else 1) + series_count s)%nat.
Proof.
  unfold series_count. rewrite filter_cons.
  destruct v; reflexivity.
Qed.

Lemma series_sum_within (lo hi : Q) (s : Series) :
  Forall (within lo hi) s ->
  lo * inject_Z (Z.of_nat (series_count s)) <= series_sum s
  /\ series_sum s <= hi * inject_Z (Z.of_nat (series_count s)).
Proof.
  induction 1 as [|v s Hv _ IH].
  - change (series_count []) with O.
    change (inject_Z (Z.of_nat 0)) with 0. simpl. lra.
  - rewrite series_count_cons. destruct v as [|x]; simpl in *; [exact IH |].
    rewrite Nat2Z.inj_succ, <- Z.add_1_r, inject_Z_plus.
    change (inject_Z 1) with 1. nra.
Qed.

Lemma series_mean_within (lo hi : Q) (s : Series) :
  Forall (within lo hi) s -> within lo hi (series_mean s).
Proof.
  intros Hs. unfold series_mean.
  destruct (series_sum_within lo hi s Hs) as [Hlo Hhi].
  destruct (series_count s) as [|n] eqn:E; [exact I |]. simpl within.
  set (c := inject_Z (Z.of_nat (S n))) in *.
  assert (0 < c) as Hc.
  { unfold c. change 0 with (inject_Z 0). rewrite <- Zlt_Qlt. lia. }
  split.
  - apply Qle_shift_div_l; [exact Hc | lra].
  - apply Qle_shift_div_r; [exact Hc | lra].
Qed.

Lemma fold_fmax_skipna_within (lo hi : Q) (s : Series) (acc : pyfloat) :
  within lo hi acc -> Forall (within lo hi) s ->
  within lo hi (fold_left fmax_skipna s acc).
Proof.
  intros Hacc Hs. revert acc Hacc.
  induction Hs as [|v s Hv _ IH]; intros acc Hacc; simpl; [exact Hacc |].
  apply IH. destruct acc as [|a], v as [|b]; simpl in *; try assumption.
  destruct (Qle_bool a b); assumption.
Qed.

Lemma fold_fmin_skipna_within (lo hi : Q) (s : Series) (acc : pyfloat) :
  within lo hi acc -> Forall (within lo hi) s ->
  within lo hi (fold_left fmin_skipna s acc).
Proof.
  intros Hacc Hs. revert acc Hacc.
  induction Hs as [|v s Hv _ IH]; intros acc Hacc; simpl; [exact Hacc |].
  apply IH. destruct acc as [|a], v as [|b]; simpl in *; try assumption.
  destruct (Qle_bool a b); assumption.
Qed.

End Statistics.

(** X16. In the temperature statistics the hours above 65, 45 and 25
    degrees are nested: no more hours above 65 than above 45, no more above
    45 than above 25, and no more above 25 than there are hours. *)
Theorem hours_above_thresholds_are_nested
    (self : TemperatureModel.t) (cell_temp temp_air poa_global : Series) :
  let stats :=
    TemperatureModel.get_temperature_statistics self cell_temp temp_air
      poa_global in
  (TemperatureModel.hours_above_65C stats
   <= TemperatureModel.hours_above_45C stats)%nat
  /\ (TemperatureModel.hours_above_45C stats
      <= TemperatureModel.hours_above_25C stats)%nat
  /\ (TemperatureModel.hours_above_25C stats <= length cell_temp)%nat.
Proof.
  simpl. split_and!.
  - apply bool_sum_gt_antitone. lra.
  - apply bool_sum_gt_antitone. lra.
  - etrans; [apply bool_sum_le_length |].
    unfold series_gt_scalar. by rewrite length_fmap.
Qed.

(** X17. When no hour has a plane-of-array irradiance above 10 W/m2 (an
    empty frame included), the two daytime averages of the temperature
    statistics are NaN. *)
Theorem daytime_averages_without_daytime
    (self : TemperatureModel.t) (cell_temp temp_air poa_global : Series) :
  Forall (fun p => fgt p (Num 10) = false) poa_global ->
  let stats :=
    TemperatureModel.get_temperature_statistics self cell_temp temp_air
      poa_global in
  TemperatureModel.avg_cell_temp_daytime stats = NaN
  /\ TemperatureModel.avg_temperature_rise_daytime stats = NaN.
Proof.
  intros Hnight. simpl.
  assert (Forall (fun b => b = false) (series_gt_scalar poa_global 10))
    as Hmask.
  { unfold series_gt_scalar. by apply Forall_fmap. }
  rewrite !(boolean_index_no_true _ _ Hmask). split; reflexivity.
Qed.

Lemma daytime_averages_without_daytime_witness :
  TemperatureModel.avg_cell_temp_daytime
    (TemperatureModel.get_temperature_statistics
       {| TemperatureModel.mounting_type := "roof_mounted";
          TemperatureModel.model := "faiman";
          TemperatureModel.params := [] |}
       [Num 12; Num 11] [Num 12; Num 11] [Num 0; Num 10]) = NaN.
Proof.
  apply (daytime_averages_without_daytime
           {| TemperatureModel.mounting_type := "roof_mounted";
              TemperatureModel.model := "faiman";
              TemperatureModel.params := [] |}
           [Num 12; Num 11] [Num 12; Num 11] [Num 0; Num 10]).
  repeat constructor.
Defined.

(** X18. The statistics of the cell temperatures that
    [calculate_cell_temperature] returns stay in the operating range: the
    maximum, the minimum, the average and the daytime average are each NaN
    or a number of [-40, 85]. *)
Theorem statistics_of_model_output_in_range {pvlib : Pvlib}
    (self : TemperatureModel.t)
    (poa_global temp_air wind_speed cell_temp : Series) :
  TemperatureModel.calculate_cell_temperature
    self poa_global temp_air wind_speed = Ok cell_temp ->
  let stats :=
    TemperatureModel.get_temperature_statistics self cell_temp temp_air
      poa_global in
  within (-40) 85 (TemperatureModel.max_cell_temp stats)
  /\ within (-40) 85 (TemperatureModel.min_cell_temp stats)
  /\ within (-40) 85 (TemperatureModel.avg_cell_temp stats)
  /\ within (-40) 85 (TemperatureModel.avg_cell_temp_daytime stats).
Proof.
  intros Hcall.
  assert (Forall (within (-40) 85) cell_temp) as Hall.
  { apply Forall_lookup. intros i [|c] Hi; [exact I |].
    apply (proj1 (cell_temperature_range_and_floor self _ _ _ _ i Hcall)
             c Hi). }
  simpl. split_and!.
  - by apply fold_fmax_skipna_within.
  - by apply fold_fmin_skipna_within.
  - by apply series_mean_within.
  - by apply series_mean_within, boolean_index_Forall.
Qed.

Lemma statistics_of_model_output_in_range_witness :
  within (-40) 85
    (TemperatureModel.max_cell_temp
       (TemperatureModel.get_temperature_statistics
          {| TemperatureModel.mounting_type := "roof_mounted";
             TemperatureModel.model := "noct";
             TemperatureModel.params := [] |}
          [Num 30; Num 85] [Num 30; Num 200] [Num 0; Num 0])).
Proof.
  apply (statistics_of_model_output_in_range (pvlib := sample_pvlib)
           {| TemperatureModel.mounting_type := "roof_mounted";
              TemperatureModel.model := "noct";
              TemperatureModel.params := [] |}
           [Num 0; Num 0] [Num 30; Num 200] [Num 1; Num 1]
           [Num 30; Num 85] eq_refl).
Defined.

(** * Further properties of the irradiance model *)

Section IrradianceSummary.
Context {pvlib : Pvlib}.
Import IrradianceModel.

Lemma series_sum_dominated (big small : Series) :
  Forall2 (fun b s => exists x y : Q, b = Num x /\ s = Num y /\ 0 <= y <= x)
          big small ->
  0 <= series_sum small <= series_sum big.
Proof.
  induction 1 as [|b s big small (x & y & -> & -> & Hxy) _ IH]; simpl; lra.
Qed.

(** In the frame of [calculate_poa], hour by hour, the effective irradiance
    lies between 0 and a non-negative plane-of-array irradiance. *)
Lemma poa_effective_dominated (self : t) (weather_df : WeatherDF) :
  let df := calculate_poa self weather_df in
  Forall (fun v => exists g : Q, v = Num g /\ 0 <= g) (poa_global df) ->
  Forall2 (fun b s => exists x y : Q, b = Num x /\ s = Num y /\ 0 <= y <= x)
          (poa_global df) (poa_effective df).
Proof.
  intros df Hpos.
  destruct (calculate_poa_lengths self weather_df)
    as (_ & _ & _ & Hlg & Hlm & Hle).
  apply Forall2_same_length_lookup. split; [unfold df; congruence |].
  intros i b s Hb Hs.
  destruct (proj1 (Forall_lookup _ _) Hpos i b Hb) as (g & -> & Hg).
  destruct (lookup_lt_is_Some_2 (iam df) i) as [m Hm].
  { apply lookup_lt_Some in Hb. unfold df in *. lia. }
  destruct (_calculate_iam_bounds self _ i m Hm) as (x & -> & Hx).
  pose proof (poa_effective_lookup self weather_df i _ _ Hb Hm) as He.
  fold df in He. rewrite He in Hs. injection Hs as <-. simpl fmul.
  destruct (clip_value_lower_Num 0 (g * x)) as (e & -> & He0 & Hmax).
  exists g, e. split_and!; [reflexivity | reflexivity | exact He0 |].
  rewrite Hmax. apply Q.max_lub; [exact Hg | nra].
Qed.

End IrradianceSummary.

(** X19. For the frame of [calculate_poa] with a non-negative plane-of-array
    irradiance in every hour, the annual summary reports an incidence-angle
    loss between 0 and 100 percent and an effective annual irradiation
    between 0 and the annual plane-of-array irradiation. *)
Theorem iam_loss_percent_bounds {pvlib : Pvlib}
    (self : IrradianceModel.t) (weather_df : WeatherDF) :
  let df := IrradianceModel.calculate_poa self weather_df in
  Forall (fun v => exists g : Q, v = Num g /\ 0 <= g)
         (IrradianceModel.poa_global df) ->
  let summary := IrradianceModel.get_annual_irradiance_summary self df in
  0 <= IrradianceModel.iam_loss_percent summary <= 100
  /\ 0 <= IrradianceModel.annual_poa_effective_kwh_m2 summary
     <= IrradianceModel.annual_poa_kwh_m2 summary.
Proof.
  intros df Hpos summary.
  pose proof (series_sum_dominated _ _
                (poa_effective_dominated self weather_df Hpos)) as Hsum.
  fold df in Hsum. unfold summary.
  unfold IrradianceModel.get_annual_irradiance_summary.
  cbn [IrradianceModel.iam_loss_percent
       IrradianceModel.annual_poa_effective_kwh_m2
       IrradianceModel.annual_poa_kwh_m2].
  set (sg := series_sum (IrradianceModel.poa_global df)) in *.
  set (se := series_sum (IrradianceModel.poa_effective df)) in *.
  split.
  - destruct (Qlt_bool 0 sg) eqn:E; [| lra].
    apply Qlt_bool_iff in E.
    assert (0 <= se / sg) as H0 by (apply Qle_shift_div_l; lra).
    assert (se / sg <= 1) as H1 by (apply Qle_shift_div_r; lra).
    lra.
  - split.
    + apply Qle_shift_div_l; lra.
    + apply Qmult_le_compat_r; [lra |]. apply Qinv_le_0_compat. lra.
Qed.

Lemma iam_loss_percent_bounds_witness :
  0 <= IrradianceModel.iam_loss_percent
         (IrradianceModel.get_annual_irradiance_summary
            {| IrradianceModel.latitude := 31.30;
               IrradianceModel.longitude := 120.62;
               IrradianceModel.altitude := 5;
               IrradianceModel.tilt := 3;
               IrradianceModel.azimuth := 180;
               IrradianceModel.albedo := 0.2 |}
            (IrradianceModel.calculate_poa (pvlib := sample_pvlib)
               {| IrradianceModel.latitude := 31.30;
                  IrradianceModel.longitude := 120.62;
                  IrradianceModel.altitude := 5;
                  IrradianceModel.tilt := 3;
                  IrradianceModel.azimuth := 180;
                  IrradianceModel.albedo := 0.2 |} sample_weather))
    <= 100.
Proof.
  apply (iam_loss_percent_bounds (pvlib := sample_pvlib)
           {| IrradianceModel.latitude := 31.30;
              IrradianceModel.longitude := 120.62;
              IrradianceModel.altitude := 5;
              IrradianceModel.tilt := 3;
              IrradianceModel.azimuth := 180;
              IrradianceModel.albedo := 0.2 |} sample_weather).
  repeat constructor; eexists; (split; [reflexivity | simpl; lra]).
Defined.

(** * Further properties of the simulator *)

Section RunMore.
Context {pvlib : Pvlib}.
Import PVSimulator.

(** What a run reads of its simulator. *)
Lemma run_stages_reads (self1 self2 : t)
    (fetch_tmy_data : result WeatherDF) :
  irradiance_model self1 = irradiance_model self2 ->
  temperature_model self1 = temperature_model self2 ->
  loss_model self1 = loss_model self2 ->
  System.capacity_kw (system self1) = System.capacity_kw (system self2) ->
  PVModule.gamma_pmp (module self1) = PVModule.gamma_pmp (module self2) ->
  PVModule.T_ref (module self1) = PVModule.T_ref (module self2) ->
  Inverter.pdc0 (inverter self1) = Inverter.pdc0 (inverter self2) ->
  Inverter.pac0 (inverter self1) = Inverter.pac0 (inverter self2) ->
  Inverter.eta_inv_nom (inverter self1)
    = Inverter.eta_inv_nom (inverter self2) ->
  default 0.9637 (Inverter.eta_inv_ref (inverter self1))
    = default 0.9637 (Inverter.eta_inv_ref (inverter self2)) ->
  run_stages self1 fetch_tmy_data = run_stages self2 fetch_tmy_data.
Proof.
  intros Him Htm Hloss Hcap Hg Ht Hpdc Hpac Hnom Href.
  destruct fetch_tmy_data as [w|e]; [| reflexivity].
  cbv beta iota zeta delta [run_stages bind]. rewrite Him, Htm, Hloss.
  destruct (TemperatureModel.calculate_cell_temperature _ _ _ _)
    as [cell|e]; [| reflexivity].
  assert (forall poa, _calculate_dc_power self1 poa cell
                      = _calculate_dc_power self2 poa cell) as Hdc.
  { intros poa. unfold _calculate_dc_power. by rewrite Hcap, Hg, Ht. }
  assert (forall dc, _calculate_ac_power self1 dc
                     = _calculate_ac_power self2 dc) as Hac.
  { intros dc. unfold _calculate_ac_power.
    by rewrite Hpdc, Hpac, Hnom, Href. }
  by rewrite !Hdc, !Hac.
Qed.

Lemma series_count_le_length (s : Series) :
  (series_count s <= length s)%nat.
Proof. unfold series_count. apply length_filter. Qed.

Lemma energy_within_rating (self : t) (dc_power : Series) :
  0 <= Inverter.pac0 (inverter self) ->
  Forall (within 0 (Inverter.pac0 (inverter self)))
         (fillna 0 (_calculate_ac_power self dc_power)).
Proof.
  intros Hpac. apply Forall_lookup. intros i v Hv.
  unfold fillna in Hv.
  apply list_lookup_fmap_Some in Hv as ([|a] & -> & Ha); simpl; [lra |].
  by apply (_calculate_ac_power_bounds self dc_power i a Hpac).
Qed.

End RunMore.

(** X21. An inverter dictionary without the entry eta_inv_ref runs as one
    with eta_inv_ref = 0.9637. *)
Theorem missing_eta_inv_ref_is_default {pvlib : Pvlib}
    (loc : Location.t) (sys : System.t) (mod_ : PVModule.t)
    (inv : Inverter.t) (loss : SystemLosses.LossParams) :
  Inverter.eta_inv_ref inv = None ->
  exists self1 self2 : PVSimulator.t,
    PVSimulator.__init__ loc sys mod_ inv loss = Ok self1
    /\ PVSimulator.__init__ loc sys mod_
         (with_eta_inv_ref inv (Some 0.9637)) loss = Ok self2
    /\ forall fetch_tmy_data : result WeatherDF,
         PVSimulator.run_simulation self1 fetch_tmy_data
         = PVSimulator.run_simulation self2 fetch_tmy_data.
Proof.
  intros Hnone.
  destruct (init_unfold loc sys mod_ inv loss)
    as (self1 & Hi1 & _ & Hs1 & Hm1 & Hinv1 & _ & Hl1 & Ht1 & Hir1).
  destruct (init_unfold loc sys mod_ (with_eta_inv_ref inv (Some 0.9637))
              loss)
    as (self2 & Hi2 & _ & Hs2 & Hm2 & Hinv2 & _ & Hl2 & Ht2 & Hir2).
  exists self1, self2. split_and!; [exact Hi1 | exact Hi2 |].
  intros f. unfold PVSimulator.run_simulation.
  rewrite (run_stages_reads self1 self2 f); [reflexivity | ..];
    rewrite ?Hs1, ?Hs2, ?Hm1, ?Hm2, ?Hinv1, ?Hinv2, ?Hl1, ?Hl2;
    try reflexivity; try congruence.
  simpl. by rewrite Hnone.
Qed.

Lemma missing_eta_inv_ref_is_default_witness :
  exists self1 self2 : PVSimulator.t,
    PVSimulator.__init__ LOCATION SYSTEM MODULE
      (with_eta_inv_ref INVERTER None) LOSSES = Ok self1
    /\ PVSimulator.__init__ LOCATION SYSTEM MODULE INVERTER LOSSES = Ok self2
    /\ PVSimulator.run_simulation (pvlib := sample_pvlib) self1
         (Ok sample_weather)
       = PVSimulator.run_simulation (pvlib := sample_pvlib) self2
           (Ok sample_weather).
Proof.
  destruct (missing_eta_inv_ref_is_default (pvlib := sample_pvlib)
              LOCATION SYSTEM MODULE (with_eta_inv_ref INVERTER None) LOSSES
              eq_refl) as (self1 & self2 & Hi1 & Hi2 & Hrun).
  exists self1, self2. split_and!; [exact Hi1 | exact Hi2 | apply Hrun].
Defined.

(** X22. A run reads of its configuration only the coordinates, the plant
    capacity, tilt, azimuth, albedo and mounting type, the module's
    gamma_pmp and T_ref, the inverter and the losses: two configurations
    that agree on these give the same result, whatever their names, time
    zone, area, module power, T_noct and G_ref. *)
Theorem run_ignores_descriptive_entries {pvlib : Pvlib}
    (loc1 loc2 : Location.t) (sys1 sys2 : System.t)
    (mod1 mod2 : PVModule.t) (inv : Inverter.t)
    (loss : SystemLosses.LossParams) :
  Location.latitude loc1 = Location.latitude loc2 ->
  Location.longitude loc1 = Location.longitude loc2 ->
  Location.altitude loc1 = Location.altitude loc2 ->
  System.capacity_kw sys1 = System.capacity_kw sys2 ->
  System.tilt sys1 = System.tilt sys2 ->
  System.azimuth sys1 = System.azimuth sys2 ->
  System.albedo sys1 = System.albedo sys2 ->
  System.mounting_type sys1 = System.mounting_type sys2 ->
  PVModule.gamma_pmp mod1 = PVModule.gamma_pmp mod2 ->
  PVModule.T_ref mod1 = PVModule.T_ref mod2 ->
  exists self1 self2 : PVSimulator.t,
    PVSimulator.__init__ loc1 sys1 mod1 inv loss = Ok self1
    /\ PVSimulator.__init__ loc2 sys2 mod2 inv loss = Ok self2
    /\ forall fetch_tmy_data : result WeatherDF,
         PVSimulator.run_simulation self1 fetch_tmy_data
         = PVSimulator.run_simulation self2 fetch_tmy_data.
Proof.
  intros Hlat Hlon Halt Hcap Htilt Haz Halb Hmt Hg Ht.
  destruct (init_unfold loc1 sys1 mod1 inv loss)
    as (self1 & Hi1 & _ & Hs1 & Hm1 & Hinv1 & _ & Hl1 & Ht1 & Hir1).
  destruct (init_unfold loc2 sys2 mod2 inv loss)
    as (self2 & Hi2 & _ & Hs2 & Hm2 & Hinv2 & _ & Hl2 & Ht2 & Hir2).
  exists self1, self2. split_and!; [exact Hi1 | exact Hi2 |].
  intros f. unfold PVSimulator.run_simulation.
  rewrite (run_stages_reads self1 self2 f); [reflexivity | ..];
    rewrite ?Hs1, ?Hs2, ?Hm1, ?Hm2, ?Hinv1, ?Hinv2, ?Hl1, ?Hl2;
    try reflexivity; try assumption.
  - rewrite Hlat, Hlon, Halt, Htilt, Haz, Halb in Hir1. congruence.
  - rewrite Hmt in Ht1. congruence.
Qed.

Lemma run_ignores_descriptive_entries_witness :
  exists self1 self2 : PVSimulator.t,
    PVSimulator.__init__ LOCATION SYSTEM MODULE INVERTER LOSSES = Ok self1
    /\ PVSimulator.__init__ LOCATION
         {| System.capacity_kw := 1000; System.area_m2 := 1;
            System.tilt := 3; System.azimuth := 180; System.albedo := 0.2;
            System.mounting_type := "roof_mounted" |}
         {| PVModule.name := "other"; PVModule.pmp := 300;
            PVModule.gamma_pmp := -0.0035; PVModule.T_noct := 45;
            PVModule.T_ref := 25; PVModule.G_ref := 800 |}
         INVERTER LOSSES = Ok self2
    /\ PVSimulator.run_simulation (pvlib := sample_pvlib) self1
         (Ok sample_weather)
       = PVSimulator.run_simulation (pvlib := sample_pvlib) self2
           (Ok sample_weather).
Proof.
  destruct (run_ignores_descriptive_entries (pvlib := sample_pvlib)
              LOCATION LOCATION SYSTEM
              {| System.capacity_kw := 1000; System.area_m2 := 1;
                 System.tilt := 3; System.azimuth := 180;
                 System.albedo := 0.2;
                 System.mounting_type := "roof_mounted" |}
              MODULE
              {| PVModule.name := "other"; PVModule.pmp := 300;
                 PVModule.gamma_pmp := -0.0035; PVModule.T_noct := 45;
                 PVModule.T_ref := 25; PVModule.G_ref := 800 |}
              INVERTER LOSSES)
    as (self1 & self2 & Hi1 & Hi2 & Hrun); try reflexivity.
  exists self1, self2. split_and!; [exact Hi1 | exact Hi2 | apply Hrun].
Defined.

(** X23. With a rated AC output pac0 >= 0, the energy of a run summed over
    the year lies between 0 and pac0 times the number of weather samples. *)
Theorem total_energy_within_rating {pvlib : Pvlib}
    (loc : Location.t) (sys : System.t) (mod_ : PVModule.t)
    (inv : Inverter.t) (loss : SystemLosses.LossParams)
    (weather_df : WeatherDF) :
  0 <= Inverter.pac0 inv ->
  exists (self : PVSimulator.t) (results_df : PVSimulator.ResultsDF),
    PVSimulator.__init__ loc sys mod_ inv loss = Ok self
    /\ PVSimulator.run_simulation self (Ok weather_df) = Ok results_df
    /\ 0 <= series_sum (PVSimulator.res_energy_kwh results_df)
       <= Inverter.pac0 inv * inject_Z (Z.of_nat (length weather_df)).
Proof.
  intros Hpac.
  destruct (run_facts loc sys mod_ inv loss weather_df)
    as (self & frame & Hi & Hinv & _ & Hsim & _ & _ & _ & Hac & Hen
        & _ & _ & Hlac).
  exists self, (PVSimulator._format_results frame).
  split_and!; [exact Hi | exact Hsim | |].
  all: unfold PVSimulator._format_results;
    cbn [PVSimulator.res_energy_kwh]; rewrite Hen, Hac;
    rewrite <- Hinv in Hpac;
    pose proof (series_sum_within 0 _ _
                  (energy_within_rating self
                     (PVSimulator.dc_power_after_loss_kw frame) Hpac))
      as [Hlo Hhi].
  - lra.
  - assert (inject_Z (Z.of_nat
                        (series_count
                           (fillna 0
                              (PVSimulator._calculate_ac_power self
                                 (PVSimulator.dc_power_after_loss_kw frame)))))
            <= inject_Z (Z.of_nat (length weather_df))) as Hcount.
    { rewrite <- Zle_Qle. apply Nat2Z.inj_le.
      etrans; [apply series_count_le_length |].
      unfold fillna. rewrite length_fmap, <- Hac, Hlac. lia. }
    rewrite <- Hinv. nra.
Qed.

Lemma total_energy_within_rating_witness :
  exists (self : PVSimulator.t) (results_df : PVSimulator.ResultsDF),
    PVSimulator.__init__ LOCATION SYSTEM MODULE INVERTER LOSSES = Ok self
    /\ PVSimulator.run_simulation (pvlib := sample_pvlib) self
         (Ok sample_weather) = Ok results_df
    /\ 0 <= series_sum (PVSimulator.res_energy_kwh results_df) <= 3000.
Proof.
  destruct (total_energy_within_rating (pvlib := sample_pvlib)
              LOCATION SYSTEM MODULE INVERTER LOSSES sample_weather)
    as (self & res & Hi & Hrun & Hsum); [simpl; lra |].
  destruct Hsum as [H0 H1].
  exists self, res. split_and!; [exact Hi | exact Hrun | exact H0 |].
  eapply Qle_trans; [exact H1 |]. vm_compute. discriminate.
Defined.

(** * Properties of the weather validation and of the configuration *)

Section Validation.
Import PVGISWeatherFetcher.

Lemma no_negative_count (s : Series) :
  bool_sum (series_lt_scalar s 0) = 0%nat
  <-> Forall (fun v => ~ is_negative v) s.
Proof.
  unfold series_lt_scalar. induction s as [|v s IH]; csimpl.
  - split; [constructor | reflexivity].
  - rewrite bool_sum_cons, Forall_cons, <- IH.
    destruct v as [|x]; simpl; [intuition lia |].
    destruct (Qlt_bool x 0) eqn:E.
    + apply Qlt_bool_iff in E. split; [lia | intros [Hn _]; by destruct Hn].
    + assert (~ x < 0) as Hn by (rewrite <- Qlt_bool_iff; congruence).
      split; [intros H0; split; [exact Hn | lia] | intros [_ H0]; lia].
Qed.

End Validation.

(** X24. The weather validation reports the frame complete exactly when it
    has 8760 rows (so a leap-year frame of 8784 rows is reported incomplete),
    and physically valid exactly when no global, direct or diffuse
    irradiance is a negative number; a missing value does not make the frame
    invalid. *)
Theorem validation_flags
    (self : PVGISWeatherFetcher.t) (df : WeatherDF) :
  let validation := PVGISWeatherFetcher.validate_data self df in
  PVGISWeatherFetcher.total_hours validation = length df
  /\ (PVGISWeatherFetcher.is_complete validation = true
      <-> length df = 8760%nat)
  /\ (PVGISWeatherFetcher.is_physically_valid validation = true
      <-> Forall (fun row => ~ is_negative (ghi row)
                             /\ ~ is_negative (dni row)
                             /\ ~ is_negative (dhi row)) df).
Proof.
  cbv beta iota zeta
    delta [PVGISWeatherFetcher.validate_data
           PVGISWeatherFetcher.total_hours PVGISWeatherFetcher.is_complete
           PVGISWeatherFetcher.is_physically_valid].
  split_and!; [reflexivity | apply Nat.eqb_eq |].
  cbn [forallb]. rewrite !andb_true_iff, !Nat.eqb_eq, !no_negative_count.
  rewrite !Forall_fmap, !Forall_and. unfold compose. tauto.
Qed.

Section Config.

Lemma fold_remaining_efficiency (L : SystemLosses.LossParams) (r : Q) :
  fold_left (fun remaining_efficiency (item : string * Q) =>
               remaining_efficiency * (1 - item.2)) L r
  = fold_left (fun retention_factor loss_value =>
                 retention_factor * (1 - loss_value)) L.*2 r.
Proof.
  revert r. induction L as [|[k v] L IH]; intros r; simpl;
    [reflexivity | apply IH].
Qed.

Lemma dict_set_Forall {V : Type} (P : string * V -> Prop)
    (d : list (string * V)) (k : string) (v : V) :
  (forall k' : string, P (k', v)) -> Forall P d -> Forall P (dict_set d k v).
Proof.
  intros Hv. induction 1 as [|[k' v'] d Hx Hd IH]; simpl.
  - by constructor.
  - destruct (String.eqb k k'); constructor; auto.
Qed.

Lemma fold_left_raised {A B : Type} (f : A -> B -> result A) (l : list B)
    (e : exn) :
  fold_left (fun (acc : result A) (x : B) => a <- acc ;; f a x) l (Raise e)
  = Raise e.
Proof. induction l as [|x l IH]; simpl; [reflexivity | exact IH]. Qed.

Lemma config_getitem_missing (NAMES : list (string * string))
    (k : string) :
  k ∉ NAMES.*1 -> loss_params.getitem NAMES k = Raise (KeyError k).
Proof.
  induction NAMES as [|[k' n'] NAMES IH]; csimpl; intros Hk; [reflexivity |].
  destruct (String.eqb_spec k k') as [->|Hne].
  - exfalso. apply Hk. left.
  - apply IH. intros Hin. apply Hk. by right.
Qed.

(** The loop of the configuration's [get_loss_breakdown] on a table whose
    positive categories all have a display name. *)
Lemma config_breakdown_fold (L : SystemLosses.LossParams)
    (NAMES : list (string * string)) (b0 : list (string * Q)) :
  (forall kv, kv ∈ L -> 0 < kv.2 ->
              exists n, loss_params.getitem NAMES kv.1 = Ok n) ->
  Forall (fun kv => 0 < kv.2) b0 ->
  exists b : list (string * Q),
    fold_left
      (fun (acc : result (list (string * Q))) (item : string * Q) =>
         breakdown <- acc ;;
         (if Qlt_bool 0 item.2 then
            name <- loss_params.getitem NAMES item.1 ;;
            Ok (dict_set breakdown name item.2)
          else Ok breakdown))
      L (Ok b0) = Ok b
    /\ Forall (fun kv => 0 < kv.2) b.
Proof.
  revert b0. induction L as [|[k v] L IH]; intros b0 Hnamed Hb0; simpl.
  - by exists b0.
  - assert (forall kv, kv ∈ L -> 0 < kv.2 ->
                       exists n, loss_params.getitem NAMES kv.1 = Ok n)
      as Hnamed'.
    { intros kv Hin. apply Hnamed. by right. }
    destruct (Qlt_bool 0 v) eqn:E; [| by apply IH].
    apply Qlt_bool_iff in E.
    destruct (Hnamed (k, v) ltac:(left) E) as [n Hn]. simpl in Hn.
    rewrite Hn. simpl. apply IH; [exact Hnamed' |].
    apply dict_set_Forall; [intros k'; exact E | exact Hb0].
Qed.

End Config.

(** X26. The total loss of the configuration module
    ([get_total_dc_loss]) is one minus the total loss factor of the loss
    model on the same table, and the total loss percentage of the loss model
    is that total loss times 100: the two modules run the same loop. *)
Theorem config_total_loss_matches_loss_model (L : SystemLosses.LossParams) :
  let self := {| SystemLosses.loss_params := L |} in
  loss_params.get_total_dc_loss L
  = 1 - SystemLosses.get_total_loss_factor self
  /\ SystemLosses.get_total_loss_percentage self
     = loss_params.get_total_dc_loss L * 100.
Proof.
  intros self.
  assert (loss_params.get_total_dc_loss L
          = 1 - SystemLosses.get_total_loss_factor self) as E.
  { unfold loss_params.get_total_dc_loss,
      SystemLosses.get_total_loss_factor, self. simpl.
    by rewrite fold_remaining_efficiency. }
  split; [exact E |].
  unfold SystemLosses.get_total_loss_percentage. by rewrite E.
Qed.

(** X27. When every category with a positive value has a display name, the
    configuration's [get_loss_breakdown] succeeds and every value it lists
    is positive: categories with value zero are left out. *)
Theorem config_breakdown_lists_positive_values
    (L : SystemLosses.LossParams) (NAMES : list (string * string)) :
  (forall kv, kv ∈ L -> 0 < kv.2 ->
              exists n, loss_params.getitem NAMES kv.1 = Ok n) ->
  exists b : list (string * Q),
    loss_params.get_loss_breakdown L NAMES = Ok b
    /\ Forall (fun kv => 0 < kv.2) b.
Proof.
  intros Hnamed. unfold loss_params.get_loss_breakdown.
  by apply config_breakdown_fold.
Qed.

Lemma config_breakdown_lists_positive_values_witness :
  exists b : list (string * Q),
    loss_params.get_loss_breakdown LOSSES loss_params.LOSS_NAMES = Ok b
    /\ length b = 7%nat.
Proof.
  destruct (config_breakdown_lists_positive_values LOSSES
              loss_params.LOSS_NAMES) as (b & Hb & _).
  - intros [k v] Hin _.
    repeat (apply elem_of_cons in Hin as [[= -> ->]|Hin];
            [eexists; reflexivity |]).
    by apply elem_of_nil in Hin.
  - exists b. split; [exact Hb |].
    vm_compute in Hb. injection Hb as <-. reflexivity.
Defined.

(** X28. A category with a positive value and no display name makes the
    configuration's [get_loss_breakdown] raise a KeyError for that category
    (the first such category of the table). *)
Theorem config_breakdown_unnamed_category
    (L1 L2 : SystemLosses.LossParams) (NAMES : list (string * string))
    (k : string) (v : Q) :
  (forall kv, kv ∈ L1 -> 0 < kv.2 ->
              exists n, loss_params.getitem NAMES kv.1 = Ok n) ->
  0 < v -> k ∉ NAMES.*1 ->
  loss_params.get_loss_breakdown (L1 ++ (k, v) :: L2) NAMES
  = Raise (KeyError k).
Proof.
  intros Hnamed Hv Hk. unfold loss_params.get_loss_breakdown.
  rewrite fold_left_app.
  destruct (config_breakdown_fold L1 NAMES [] Hnamed ltac:(constructor))
    as (b & -> & _).
  simpl. apply Qlt_bool_iff in Hv. rewrite Hv.
  rewrite (config_getitem_missing NAMES k Hk).
  simpl. apply (fold_left_raised
                  (fun breakdown (item : string * Q) =>
                     if Qlt_bool 0 item.2
                     then name <- loss_params.getitem NAMES item.1 ;;
                          Ok (dict_set breakdown name item.2)
                     else Ok breakdown)).
Qed.

Lemma config_breakdown_unnamed_category_witness :
  loss_params.get_loss_breakdown
    ([("soiling"%string, 0.02)]
       ++ ("hail"%string, 0.01) :: [("age"%string, 0.00)])
    loss_params.LOSS_NAMES
  = Raise (KeyError "hail").
Proof.
  apply (config_breakdown_unnamed_category
           [("soiling", 0.02)]%string [("age", 0.00)]%string
           loss_params.LOSS_NAMES "hail" 0.01).
  - intros [k v] Hin _.
    repeat (apply elem_of_cons in Hin as [[= -> ->]|Hin];
            [eexists; reflexivity |]).
    by apply elem_of_nil in Hin.
  - lra.
  - vm_compute. solve_not_in.
Defined.
